(** * RAG over online documents: the pipeline of [app.py]

    A shallow embedding of [src/app.py]: the class [RAGPipeline] (document
    upload, chunk retrieval, prompt assembly, generation, query processing)
    and the Streamlit script [main] that drives it.

    Python strings are sequences of Unicode code points; the remote services,
    the clock, the environment and the widgets are an explicit [world], and
    every interaction with them is recorded as an [event]. *)

From Stdlib Require Import ZArith NArith List String Ascii Bool Lia DecimalString.
Import ListNotations.

Set Implicit Arguments.
Set Warnings "-register-all".

(** ** Text *)

(** A Python [str]: its code points, in order. *)
Definition char := N.
Definition str := list char.

(** The code points of an ASCII literal of the source. *)
Fixpoint py (s : string) : str :=
  match s with
  | EmptyString => []
  | String a s' => N_of_ascii a :: py s'
  end.
Arguments py s%_string : simpl never.

Definition squote : char := 39%N.     (* ' *)
Definition dquote : char := 34%N.     (* the double quote *)
Definition backslash : char := 92%N.
Definition newline : char := 10%N.
Definition slash : char := 47%N.

Fixpoint str_eqb (a b : str) : bool :=
  match a, b with
  | [], [] => true
  | x :: a', y :: b' => N.eqb x y && str_eqb a' b'
  | _, _ => false
  end.

(** [c in s] for a single character. *)
Definition has_char (c : char) (s : str) : bool := existsb (N.eqb c) s.

(** [s.startswith(p)] *)
Fixpoint starts_with (p s : str) : bool :=
  match p, s with
  | [], _ => true
  | _ :: _, [] => false
  | a :: p', b :: s' => N.eqb a b && starts_with p' s'
  end.

(** [p in s] *)
Fixpoint is_infix (p s : str) : bool :=
  starts_with p s ||
  match s with
  | [] => false
  | _ :: s' => is_infix p s'
  end.

(** The number of positions of [s] at which [p] occurs. *)
Fixpoint occurrences (p s : str) : nat :=
  match s with
  | [] => 0
  | _ :: s' => (if starts_with p s then 1 else 0) + occurrences p s'
  end.

(** [sep.join(parts)] *)
Fixpoint join (sep : str) (parts : list str) : str :=
  match parts with
  | [] => []
  | [x] => x
  | x :: rest => x ++ sep ++ join sep rest
  end.

(** [s.split(sep)] for a one-character separator: never the empty list. *)
Fixpoint split (sep : char) (s : str) : list str :=
  match s with
  | [] => [[]]
  | c :: s' =>
      if N.eqb c sep then [] :: split sep s'
      else match split sep s' with
           | seg :: rest => (c :: seg) :: rest
           | [] => [[c]]
           end
  end.

(** [parts[-1]] on a list that [split] produced. *)
Definition last_item (parts : list str) : str := last parts [].

(** [str(n)] for an [int]. *)
Definition str_of_int (n : Z) : str := py (NilZero.string_of_int (Z.to_int n)).

(** The texts [cs] occur in [s] one after the other, without overlap. *)
Fixpoint embeds_in_order (cs : list str) (s : str) : Prop :=
  match cs with
  | [] => True
  | c :: cs' => exists a b, s = a ++ c ++ b /\ embeds_in_order cs' b
  end.

(** ** Python values and [repr] *)

(** What [response.json()] can produce, and what an f-string can be asked to
    format.  A [float] is represented by the text [repr] gives for it ([repr]
    of a float round-trips, so the text identifies the float); a [dict] by
    its entries in insertion order. *)
Inductive pyval : Type :=
| PNone
| PBool (b : bool)
| PInt (n : Z)
| PFloat (shortest : str)
| PStr (s : str)
| PList (items : list pyval)
| PDict (entries : list (str * pyval)).

(** Truth value of an [Optional[str]], as in [if not name]. *)
Definition truthy (o : option str) : bool :=
  match o with
  | None | Some [] => false
  | Some (_ :: _) => true
  end.

(** [f"{x}"] for an [Optional[str]]. *)
Definition format_optional (o : option str) : str :=
  match o with
  | Some s => s
  | None => py "None"
  end.

Definition hexdigit (d : N) : char :=
  if (d <? 10)%N then (48 + d)%N else (87 + d)%N.

(** [n] in lower-case hexadecimal, on exactly [width] digits. *)
Fixpoint hex_fixed (width : nat) (n : N) : str :=
  match width with
  | O => []
  | S k => hex_fixed k (n / 16)%N ++ [hexdigit (n mod 16)%N]
  end.

Section Repr.

(** The interpreter's Unicode database: whether a code point from U+0080
    upwards is printable. *)
Variable isprintable : char -> bool.

(** [repr] encloses a text in single quotes, unless it holds a single quote
    and no double quote. *)
Definition repr_quote (s : str) : char :=
  if has_char squote s && negb (has_char dquote s) then dquote else squote.

Definition repr_char (quote ch : char) : str :=
  if N.eqb ch quote || N.eqb ch backslash then [backslash; ch]
  else if N.eqb ch 9 then [backslash; 116%N]
  else if N.eqb ch 10 then [backslash; 110%N]
  else if N.eqb ch 13 then [backslash; 114%N]
  else if (ch <? 32)%N || N.eqb ch 127 then backslash :: 120%N :: hex_fixed 2 ch
  else if (ch <? 127)%N then [ch]
  else if isprintable ch then [ch]
  else if (ch <=? 255)%N then backslash :: 120%N :: hex_fixed 2 ch
  else if (ch <=? 65535)%N then backslash :: 117%N :: hex_fixed 4 ch
  else backslash :: 85%N :: hex_fixed 8 ch.

(** [repr(s)] for a [str]. *)
Definition repr_str (s : str) : str :=
  let quote := repr_quote s in
  quote :: flat_map (repr_char quote) s ++ [quote].

(** [repr(v)]; it is also [str(v)] and [f"{v}"] when [v] is a list. *)
Fixpoint repr (v : pyval) : str :=
  match v with
  | PNone => py "None"
  | PBool true => py "True"
  | PBool false => py "False"
  | PInt n => str_of_int n
  | PFloat shortest => shortest
  | PStr s => repr_str s
  | PList items => py "[" ++ join (py ", ") (map repr items) ++ py "]"
  | PDict entries =>
      py "{" ++
      join (py ", ")
           (map (fun kv : str * pyval => let (k, x) := kv in repr_str k ++ py ": " ++ repr x)
                entries) ++
      py "}"
  end.

(** A text [repr] leaves as it is between the quotes: printable, without
    backslash, and not holding both kinds of quote. *)
Definition repr_verbatim (s : str) : bool :=
  forallb (fun ch => negb (N.eqb ch backslash) && negb (ch <? 32)%N &&
                     negb (N.eqb ch 127) && ((ch <? 127)%N || isprintable ch)) s &&
  negb (has_char squote s && has_char dquote s).

End Repr.

(** ** Exceptions, services and events *)

Inductive exn : Type :=
| Exception (msg : str)          (* [raise Exception(msg)] of the source *)
| KeyError (key : str)           (* subscripting a dict that lacks [key] *)
| TypeError                      (* subscripting or iterating a value that does not allow it *)
| IndexError                     (* [choices[0]] on an empty list *)
| LibraryError (cls msg : str).  (* raised inside requests, openai, json or urllib *)

(** A [requests.Response]: [json] is what [response.json()] does. *)
Record Response := {
  status_code : Z;
  reason : str;
  json : exn + pyval
}.

(** [response.ok]: [raise_for_status] raises for 4xx and 5xx only. *)
Definition ok (r : Response) : bool :=
  negb ((400 <=? status_code r)%Z && (status_code r <? 600)%Z).

(** The [openai.OpenAI] client object. *)
Record OpenAI := {
  api_key : str;
  base_url : str
}.

Record message := {
  role : str;
  content : str
}.

(** The arguments of [chat.completions.create]. *)
Record chat_request := {
  model : str;
  messages : list message;
  temperature : pyval;
  top_p : pyval
}.

(** Everything the program does to the outside, in the order it does it.
    A request is recorded with the reply it got: the response or the
    exception for a POST, and for a chat completion the exception or the
    [message.content] of every choice, in order. *)
Inductive event : Type :=
| EPost (url : str) (body : pyval) (headers : list (str * str)) (reply : exn + Response)
| EChat (client : OpenAI) (request : chat_request) (reply : exn + list str)
| ESleep (seconds : Z)
| EPrint (text : str)
| ESessionSet (key value : str)
| EPageConfig (page_title layout : str)
| EMarkdown (body : str) (unsafe_allow_html : bool)
| ESuccess (text : str)
| EError (text : str) (raised : option exn)   (* [text] followed by [str(e)] *)
| EInfo (text : str)
| ESpinner (text : str).

(** The widgets of one run of the script, by label. *)
Record ui := {
  text_input : str -> str;
  button : str -> bool;
  selectbox : str -> list str -> str
}.

(** What the program cannot decide: the interpreter's libraries, the
    environment and the remote services.  A service sees the events so far,
    so it may answer the same request differently the second time. *)
Record world := {
  unicode_printable : char -> bool;
  urlparse_path : str -> exn + str;             (* [urlparse(url).path] *)
  RAGIE_API_KEY : option str;                   (* [os.getenv("RAGIE_API_KEY")] *)
  requests_post : list event -> str -> pyval -> list (str * str) -> exn + Response;
  chat_completions_create : list event -> OpenAI -> chat_request -> exn + list str;
  elapsed_2f : list event -> list event -> str  (* [f"{time.time() - start_time:.2f}"] *)
}.

(** ** The effect monad

    A computation reads the events so far and yields a value or an exception
    together with the events it added. *)
Inductive outcome (A : Type) : Type :=
| Return (a : A)
| Raise (e : exn).
Arguments Raise {A} e.

Definition M (A : Type) : Type := list event -> outcome A * list event.

Definition ret {A} (a : A) : M A := fun _ => (Return a, []).
Definition raise {A} (e : exn) : M A := fun _ => (Raise e, []).

Definition bind {A B} (m : M A) (f : A -> M B) : M B :=
  fun h =>
    match m h with
    | (Return a, d) => let (o, d') := f a (h ++ d) in (o, d ++ d')
    | (Raise e, d) => (Raise e, d)
    end.

(** [try: body except Exception as e: handler(e)] *)
Definition try_except {A} (body : M A) (handler : exn -> M A) : M A :=
  fun h =>
    match body h with
    | (Return a, d) => (Return a, d)
    | (Raise e, d) => let (o, d') := handler e (h ++ d) in (o, d ++ d')
    end.

Definition emit (e : event) : M unit := fun _ => (Return tt, [e]).
Definition history : M (list event) := fun h => (Return h, []).

(** A pure step that may raise. *)
Definition lift {A} (r : exn + A) : M A :=
  match r with
  | inl e => raise e
  | inr a => ret a
  end.

Declare Scope monad_scope.
Delimit Scope monad_scope with monad.
Notation "x <- m ;; k" := (bind m (fun x => k))
  (at level 61, m at next level, right associativity) : monad_scope.
Notation "m ;; k" := (bind m (fun _ => k))
  (at level 61, right associativity) : monad_scope.
Open Scope monad_scope.

Definition result_of {A} (r : outcome A * list event) : outcome A := fst r.
Definition events_of {A} (r : outcome A * list event) : list event := snd r.

Definition is_post (e : event) : bool :=
  match e with EPost _ _ _ _ => true | _ => false end.
Definition is_chat (e : event) : bool :=
  match e with EChat _ _ _ => true | _ => false end.
Definition is_sleep (e : event) : bool :=
  match e with ESleep _ => true | _ => false end.
Definition is_post_to (target : str) (e : event) : bool :=
  match e with EPost url _ _ _ => str_eqb url target | _ => false end.

(** ** Reading a decoded JSON body *)

Definition and_then {A B} (r : exn + A) (f : A -> exn + B) : exn + B :=
  match r with
  | inl e => inl e
  | inr a => f a
  end.

(** [v[key]] for a string key. *)
Definition subscript (v : pyval) (key : str) : exn + pyval :=
  match v with
  | PDict entries =>
      match find (fun kv : str * pyval => str_eqb (fst kv) key) entries with
      | Some kv => inr (snd kv)
      | None => inl (KeyError key)
      end
  | _ => inl TypeError
  end.

(** The items a [for] loop over [v] visits. *)
Definition iterate (v : pyval) : exn + list pyval :=
  match v with
  | PList items => inr items
  | PDict entries => inr (map (fun kv : str * pyval => PStr (fst kv)) entries)
  | PStr s => inr (map (fun c => PStr [c]) s)
  | _ => inl TypeError
  end.

(** [[chunk["text"] for chunk in items]]: the first item that fails decides. *)
Fixpoint texts_of (items : list pyval) : exn + list pyval :=
  match items with
  | [] => inr []
  | chunk :: rest =>
      and_then (subscript chunk (py "text")) (fun text =>
      and_then (texts_of rest) (fun texts => inr (text :: texts)))
  end.

(** Line 94: [[chunk["text"] for chunk in data["scored_chunks"]]]. *)
Definition scored_chunk_texts (data : pyval) : exn + list pyval :=
  and_then (subscript data (py "scored_chunks")) (fun scored =>
  and_then (iterate scored) texts_of).

(** [st.session_state[key]]: the value of the latest assignment, if any. *)
Fixpoint session_get (h : list event) (key : str) : option str :=
  match h with
  | [] => None
  | e :: h' =>
      match session_get h' key with
      | Some v => Some v
      | None =>
          match e with
          | ESessionSet k v => if str_eqb k key then Some v else None
          | _ => None
          end
      end
  end.

(** ** The pipeline *)

Record RAGPipeline := {
  ragie_api_key : option str;
  sambanova_api_key : str;
  sambanova_client : OpenAI;
  RAGIE_UPLOAD_URL : str;
  RAGIE_RETRIEVAL_URL : str
}.

(** The text before and after [{chunk_texts}] in the f-string of line 100. *)
Definition prompt_head : str :=
  py "These are very important to follow: You are " ++ [dquote] ++ py "Ragie AI" ++ [dquote] ++
  py ", a professional but friendly AI chatbot working as an assistant to the user. " ++
  py "Your current task is to help the user based on all of the information available to you shown below. " ++
  py "Answer informally, directly, and concisely without a heading or greeting but include everything relevant. " ++
  py "Use richtext Markdown when appropriate including bold, italic, paragraphs, and lists when helpful. " ++
  py "If using LaTeX, use double $$ as delimiter instead of single $. Use $$...$$ instead of parentheses. " ++
  py "Organize information into multiple sections or points when appropriate. " ++
  py "Don't include raw item IDs or other raw fields from the source. " ++
  py "Don't use XML or other markup unless requested by the user. " ++
  py "Here is all of the information available to answer the user: === ".

Definition prompt_tail : str :=
  py " === If the user asked for a search and there are no results, " ++
  py "make sure to let the user know that you couldn't find anything, " ++
  py "and what they might be able to do to find the information they need. " ++
  py "END SYSTEM INSTRUCTIONS".

(** The three policy clauses of the template. *)
Definition persona_clause : str :=
  py "You are " ++ [dquote] ++ py "Ragie AI" ++ [dquote] ++
  py ", a professional but friendly AI chatbot working as an assistant to the user.".

Definition no_xml_clause : str :=
  py "Don't use XML or other markup unless requested by the user.".

Definition empty_result_clause : str :=
  py "If the user asked for a search and there are no results, " ++
  py "make sure to let the user know that you couldn't find anything, " ++
  py "and what they might be able to do to find the information they need.".

Definition policy_clauses : list str :=
  [persona_clause; no_xml_clause; empty_result_clause].

Definition no_information : str := py "No relevant information found for your query.".

Definition default_scope : str := py "tutorial".
Definition default_mode : str := py "fast".

(** The first argument of [st.markdown] at line 134. *)
Definition title_html : str :=
  [newline] ++ py "        <h1 style=" ++ [dquote] ++ py "text-align: center;" ++ [dquote] ++ py ">" ++
  [newline] ++ py "            <span style=" ++ [dquote] ++ py "color: orange;" ++ [dquote] ++
  py ">SambaNova</span> RAG Over Online Documents " ++ [128218%N] ++
  [newline] ++ py "        </h1>" ++
  [newline] ++ py "    ".

Section Pipeline.

Variable w : world.

(** [requests.post(url, json=body, headers=headers)] *)
Definition post (url : str) (body : pyval) (headers : list (str * str)) : M Response :=
  fun h =>
    let reply := requests_post w h url body headers in
    (match reply with inl e => Raise e | inr r => Return r end,
     [EPost url body headers reply]).

(** [client.chat.completions.create(...)], giving the contents of the choices. *)
Definition create (client : OpenAI) (request : chat_request) : M (list str) :=
  fun h =>
    let reply := chat_completions_create w h client request in
    (match reply with inl e => Raise e | inr cs => Return cs end,
     [EChat client request reply]).

(** [RAGPipeline(sambanova_api_key)], lines 15-33. *)
Definition __init__ (sambanova_api_key : str) : exn + RAGPipeline :=
  let ragie_api_key := RAGIE_API_KEY w in
  if negb (truthy ragie_api_key) then
    inl (Exception (py "Missing Ragie API key! Please check your .env file."))
  else
    inr {| ragie_api_key := ragie_api_key;
           sambanova_api_key := sambanova_api_key;
           sambanova_client := {| api_key := sambanova_api_key;
                                  base_url := py "https://api.sambanova.ai/v1" |};
           RAGIE_UPLOAD_URL := py "https://api.ragie.ai/documents/url";
           RAGIE_RETRIEVAL_URL := py "https://api.ragie.ai/retrievals" |}.

(** [urlparse(url).path.split('/')[-1] or "document"], line 40. *)
Definition default_name (url : str) : exn + str :=
  and_then (urlparse_path w url) (fun path =>
    match last_item (split slash path) with
    | [] => inr (py "document")
    | segment => inr segment
    end).

(** The [payload] and the [headers] of lines 42-52. *)
Definition upload_payload (mode name url : str) : pyval :=
  PDict [(py "mode", PStr mode);
         (py "name", PStr name);
         (py "url", PStr url)].

Definition upload_headers (self : RAGPipeline) : list (str * str) :=
  [(py "accept", py "application/json");
   (py "content-type", py "application/json");
   (py "authorization", py "Bearer " ++ format_optional (ragie_api_key self))].

(** Lines 35-59. *)
Definition upload_document (self : RAGPipeline) (url : str) (name : option str)
           (mode : str) : M pyval :=
  name <- (if negb (truthy name) then lift (default_name url)
           else ret (match name with Some n => n | None => [] end)) ;;
  let payload := upload_payload mode name url in
  let headers := upload_headers self in
  response <- post (RAGIE_UPLOAD_URL self) payload headers ;;
  if negb (ok response) then
    raise (Exception (py "Document upload failed: " ++ str_of_int (status_code response) ++
                      py " " ++ reason response))
  else lift (json response).

(** The [headers] and the [payload] of lines 67-77. *)
Definition retrieval_headers (self : RAGPipeline) : list (str * str) :=
  [(py "Content-Type", py "application/json");
   (py "Authorization", py "Bearer " ++ format_optional (ragie_api_key self))].

Definition retrieval_payload (query scope : str) : pyval :=
  PDict [(py "query", PStr query);
         (py "filters", PDict [(py "scope", PStr scope)])].

(** Lines 61-94.  The two readings of the clock are the histories at which
    they are taken. *)
Definition retrieve_chunks (self : RAGPipeline) (query scope : str) : M (list pyval) :=
  start_time <- history ;;
  let headers := retrieval_headers self in
  let payload := retrieval_payload query scope in
  response <- post (RAGIE_RETRIEVAL_URL self) payload headers ;;
  if negb (ok response) then
    raise (Exception (py "Retrieval failed: " ++ str_of_int (status_code response) ++
                      py " " ++ reason response))
  else
    data <- lift (json response) ;;
    end_time <- history ;;
    let report := py "Time taken to retrieve document information: " ++
                  elapsed_2f w start_time end_time ++ py " seconds" in
    emit (EInfo report) ;;
    emit (EPrint report) ;;
    lift (scored_chunk_texts data).

(** Lines 96-100: the f-string formats the list itself, that is, its [repr]. *)
Definition create_system_prompt (chunk_texts : list pyval) : str :=
  prompt_head ++ repr (unicode_printable w) (PList chunk_texts) ++ prompt_tail.

(** Lines 102-116. *)
Definition generate_response (self : RAGPipeline) (system_prompt query : str) : M str :=
  response <- create (sambanova_client self)
                {| model := py "Llama-3.2-11B-Vision-Instruct";
                   messages := [ {| role := py "system"; content := system_prompt |};
                                 {| role := py "user"; content := query |} ];
                   temperature := PFloat (py "0.1");
                   top_p := PFloat (py "0.1") |} ;;
  match response with
  | first :: _ => ret first
  | [] => raise IndexError
  end.

(** Lines 118-128. *)
Definition process_query (self : RAGPipeline) (query scope : str) : M str :=
  chunks <- retrieve_chunks self query scope ;;
  match chunks with
  | [] => ret no_information
  | _ :: _ =>
      let system_prompt := create_system_prompt chunks in
      generate_response self system_prompt query
  end.

(** Lines 167-181 of [main]: the upload button. *)
Definition upload_section (u : ui) (pipeline : RAGPipeline) : M unit :=
  let doc_url := text_input u (py "Enter document URL") in
  let doc_name := text_input u (py "Document name (optional)") in
  let upload_mode := selectbox u (py "Upload mode") [py "fast"; py "accurate"] in
  if button u (py "Upload Document") then
    match doc_url with
    | _ :: _ =>
        try_except
          (emit (ESpinner (py "Uploading document...")) ;;
           _ <- upload_document pipeline doc_url
                  (match doc_name with _ :: _ => Some doc_name | [] => None end)
                  upload_mode ;;
           emit (ESleep 5) ;;
           emit (ESuccess (py "Document uploaded and indexed successfully!")))
          (fun e => emit (EError (py "Error uploading document: ") (Some e)))
    | [] => emit (EError (py "Please provide a document URL.") None)
    end
  else ret tt.

(** Lines 185-197 of [main]: the query button. *)
Definition query_section (u : ui) (pipeline : RAGPipeline) : M unit :=
  let query := text_input u (py "Enter your query") in
  if button u (py "Generate Response") then
    match query with
    | _ :: _ =>
        try_except
          (emit (ESpinner (py "Generating response...")) ;;
           response <- process_query pipeline query default_scope ;;
           emit (EMarkdown (py "### Response:") false) ;;
           emit (EMarkdown response false))
          (fun e => emit (EError (py "Error generating response: ") (Some e)))
    | [] => emit (EError (py "Please enter a query.") None)
    end
  else ret tt.

(** Lines 130-197: one run of the script. *)
Definition main (u : ui) : M unit :=
  emit (EPageConfig (py "RAG Over Online Documents with SambaNova") (py "wide")) ;;
  emit (EMarkdown title_html true) ;;
  let sambanova_key := text_input u (py "Enter SambaNova API Key") in
  (if button u (py "Submit API Key") then
     match sambanova_key with
     | _ :: _ =>
         emit (ESessionSet (py "sambanova_key") sambanova_key) ;;
         emit (ESuccess (py "SambaNova API key submitted successfully!"))
     | [] => emit (EError (py "Please enter your SambaNova API key.") None)
     end
   else ret tt) ;;
  session_state <- history ;;
  match session_get session_state (py "sambanova_key") with
  | Some key =>
      match __init__ key with
      | inl e => emit (EError [] (Some e))
      | inr pipeline =>
          emit (ESuccess (py "API keys loaded successfully!")) ;;
          emit (EMarkdown (py "### " ++ [128196%N] ++ py " Document Upload") false) ;;
          upload_section u pipeline ;;
          emit (EMarkdown (py "### " ++ [128269%N] ++ py " Query Document") false) ;;
          query_section u pipeline
      end
  | None => ret tt
  end.

(** The script run once per interaction, from the oldest to the newest. *)
Fixpoint run_session (runs : list ui) : M unit :=
  match runs with
  | [] => ret tt
  | u :: rest => main u ;; run_session rest
  end.

End Pipeline.

(** ** Kinds of events *)

(** A request to a remote service. *)
Definition is_network (e : event) : bool := is_post e || is_chat e.

(** What answering a query with [p] may do: requests to the retrieval
    endpoint and to the completion client of [p], and output. *)
Definition query_event (p : RAGPipeline) (e : event) : Prop :=
  match e with
  | EPost url _ _ _ => url = RAGIE_RETRIEVAL_URL p
  | EChat client _ _ => client = sambanova_client p
  | ESleep _ | ESessionSet _ _ => False
  | _ => True
  end.

(** What uploading with [p] may do: requests to the upload endpoint, the
    pause, and output. *)
Definition upload_event (p : RAGPipeline) (e : event) : Prop :=
  match e with
  | EPost url _ _ _ => url = RAGIE_UPLOAD_URL p
  | EChat _ _ _ | ESessionSet _ _ => False
  | _ => True
  end.

(** Output only. *)
Definition display_event (e : event) : Prop :=
  match e with
  | EPost _ _ _ _ | EChat _ _ _ | ESleep _ | ESessionSet _ _ => False
  | _ => True
  end.

(** Neither a request nor a pause: output, or a key kept in the session. *)
Definition quiet_event (e : event) : Prop :=
  match e with
  | EPost _ _ _ _ | EChat _ _ _ | ESleep _ => False
  | _ => True
  end.

(** Every key the session was given is a non-empty text. *)
Definition session_ok (h : list event) : Prop :=
  forall key value, In (ESessionSet key value) h -> value <> [].

(** ** What the specification calls the final path segment *)

(** [segment] is what follows the last [/] of [path] (all of [path] when it
    has none). *)
Definition final_segment (path segment : str) : Prop :=
  has_char slash segment = false /\
  exists before, path = before ++ segment /\
                 (before = [] \/ exists b, before = b ++ [slash]).

(** ** JSON objects, as the specification speaks of them *)

(** [v] is an object whose member [key] is [x]. *)
Definition member (v : pyval) (key : str) (x : pyval) : Prop :=
  exists entries, v = PDict entries /\ NoDup (map fst entries) /\ In (key, x) entries.

(** [v] is an object without a member [key]. *)
Definition no_member (v : pyval) (key : str) : Prop :=
  exists entries, v = PDict entries /\ ~ In key (map fst entries).

(** ** A reference world

    Concrete libraries and services, for running the pipeline on examples. *)

(** [s.split(c, 1)[0]] *)
Fixpoint before_char (c : char) (s : str) : str :=
  match s with
  | [] => []
  | x :: s' => if N.eqb x c then [] else x :: before_char c s'
  end.

(** What follows the first [c], when there is one. *)
Fixpoint after_char (c : char) (s : str) : option str :=
  match s with
  | [] => None
  | x :: s' => if N.eqb x c then Some s' else after_char c s'
  end.

Fixpoint drop_while (f : char -> bool) (s : str) : str :=
  match s with
  | [] => []
  | x :: s' => if f x then drop_while f s' else s
  end.

Definition take_while (f : char -> bool) (s : str) : str :=
  firstn (List.length s - List.length (drop_while f s)) s.

Definition is_alpha (c : char) : bool :=
  ((65 <=? c) && (c <=? 90) || (97 <=? c) && (c <=? 122))%N.
Definition is_digit (c : char) : bool := ((48 <=? c) && (c <=? 57))%N.
Definition is_scheme_char (c : char) : bool :=
  is_alpha c || is_digit c || N.eqb c 43 || N.eqb c 45 || N.eqb c 46.
Definition lower (c : char) : char :=
  if ((65 <=? c) && (c <=? 90))%N then (c + 32)%N else c.

(** The schemes for which [urlparse] splits off [;parameters]. *)
Definition uses_params : list str :=
  [ []; py "ftp"; py "hdl"; py "prospero"; py "http"; py "imap"; py "https";
    py "shttp"; py "rtsp"; py "rtspu"; py "sip"; py "sips"; py "mms"; py "sftp";
    py "tel" ].

(** [(scheme, rest)] as [urlsplit] separates them. *)
Definition split_scheme (url : str) : str * str :=
  match url, after_char 58%N url with
  | first :: _, Some rest =>
      let candidate := before_char 58%N url in
      if is_alpha first && forallb is_scheme_char candidate
      then (map lower candidate, rest)
      else ([], url)
  | _, _ => ([], url)
  end.

(** The authority and what follows it. *)
Definition split_netloc (url : str) : str * str :=
  match url with
  | 47%N :: 47%N :: rest =>
      let in_netloc c := negb (N.eqb c 47 || N.eqb c 63 || N.eqb c 35) in
      (take_while in_netloc rest, drop_while in_netloc rest)
  | _ => ([], url)
  end.

(** [_splitparams(path)[0]]: the parameters of the last segment are cut. *)
Definition strip_params (path : str) : str :=
  let segments := split slash path in
  join [slash] (removelast segments ++ [before_char 59%N (last_item segments)]).

(** [urlparse(url).path] as CPython 3.12 computes it, for a URL whose
    authority is ASCII and has no bracket, or has a bracket without its
    partner ([ValueError: Invalid IPv6 URL]).  The library validates the
    other authorities (a bracketed host as an IP literal, a non-ASCII
    authority under NFKC) in ways that are not reproduced here: the
    examples use none of them, and this parser refuses them. *)
Definition reference_urlparse_path (url : str) : exn + str :=
  let url := drop_while (fun c => (c <=? 32)%N) url in
  let url := filter (fun c => negb (N.eqb c 9 || N.eqb c 10 || N.eqb c 13)) url in
  let (scheme, url) := split_scheme url in
  let (netloc, url) := split_netloc url in
  let opened := has_char 91%N netloc in
  let closed := has_char 93%N netloc in
  if (opened && negb closed) || (closed && negb opened) then
    inl (LibraryError (py "ValueError") (py "Invalid IPv6 URL"))
  else if opened || existsb (fun c => (127 <? c)%N) netloc then
    inl (LibraryError (py "ValueError") (py "authority not validated"))
  else
    let url := before_char 63%N (before_char 35%N url) in
    inr (if existsb (str_eqb scheme) uses_params && has_char 59%N url
         then strip_params url else url).

(** Printable code points of the Latin-1 supplement; the examples use no
    code point above U+00FF, which counts as printable here. *)
Definition reference_printable (c : char) : bool :=
  (161 <=? c)%N && negb (N.eqb c 173).

(** A world with the given key, retrieval and upload replies and chat
    reply, the same at every call. *)
Definition reference_world (key : option str) (reply : exn + Response)
           (chat : exn + list str) : world :=
  {| unicode_printable := reference_printable;
     urlparse_path := reference_urlparse_path;
     RAGIE_API_KEY := key;
     requests_post := fun _ _ _ _ => reply;
     chat_completions_create := fun _ _ _ => chat;
     elapsed_2f := fun _ _ => py "0.42" |}.

Definition json_response (status : Z) (phrase : str) (body : pyval) : Response :=
  {| status_code := status; reason := phrase; json := inr body |}.

(** The retrieval reply of the specification's scenario B. *)
Definition paris_body : pyval :=
  PDict [(py "scored_chunks",
          PList [PDict [(py "text", PStr (py "Paris is the capital of France."));
                        (py "score", PFloat (py "0.91"))];
                 PDict [(py "text", PStr (py "It has a population of 2.1 million."));
                        (py "score", PFloat (py "0.77"))]])].

Definition empty_body : pyval := PDict [(py "scored_chunks", PList [])].

Definition paris_chunks : list str :=
  [py "Paris is the capital of France."; py "It has a population of 2.1 million."].

Definition capital_query : str := py "What is the capital of France?".
Definition guide_url : str := py "https://docs.example.com/guide.pdf".

(** Scenario B: retrieval finds the two passages and the model answers. *)
Definition world_paris : world :=
  reference_world (Some (py "ragie-secret"))
                  (inr (json_response 200 (py "OK") paris_body))
                  (inr [py "Paris."]).

(** Scenario C: retrieval finds nothing. *)
Definition world_empty : world :=
  reference_world (Some (py "ragie-secret"))
                  (inr (json_response 200 (py "OK") empty_body))
                  (inr [py "Paris."]).

(** The endpoints answer 503. *)
Definition world_unavailable : world :=
  reference_world (Some (py "ragie-secret"))
                  (inr {| status_code := 503; reason := py "Service Unavailable";
                          json := inr PNone |})
                  (inr [py "Paris."]).

(** [RAGIE_API_KEY] is not set. *)
Definition world_without_key : world :=
  reference_world None
                  (inr (json_response 200 (py "OK") paris_body))
                  (inr [py "Paris."]).

(** The pipeline the constructor builds from the generation key [sk-test]
    when the retrieval key is [ragie-secret]. *)
Definition reference_pipeline : RAGPipeline :=
  {| ragie_api_key := Some (py "ragie-secret");
     sambanova_api_key := py "sk-test";
     sambanova_client := {| api_key := py "sk-test";
                            base_url := py "https://api.sambanova.ai/v1" |};
     RAGIE_UPLOAD_URL := py "https://api.ragie.ai/documents/url";
     RAGIE_RETRIEVAL_URL := py "https://api.ragie.ai/retrievals" |}.

(** A chunk that spans two lines. *)
Definition broken_chunk : str :=
  py "Paris is the capital" ++ [newline] ++ py "of France.".

Definition unavailable : Response :=
  json_response 503 (py "Service Unavailable") PNone.

Definition paris_prompt : str :=
  create_system_prompt world_paris (map PStr paris_chunks).

(** The completion request of scenario B, with its reply. *)
Definition paris_completion : event :=
  EChat (sambanova_client reference_pipeline)
        {| model := py "Llama-3.2-11B-Vision-Instruct";
           messages := [ {| role := py "system"; content := paris_prompt |};
                         {| role := py "user"; content := capital_query |} ];
           temperature := PFloat (py "0.1");
           top_p := PFloat (py "0.1") |}
        (inr [py "Paris."]).

(** The retrieval request of scenario B, with its reply. *)
Definition paris_retrieval : event :=
  EPost (RAGIE_RETRIEVAL_URL reference_pipeline)
        (retrieval_payload capital_query default_scope)
        (retrieval_headers reference_pipeline)
        (inr (json_response 200 (py "OK") paris_body)).

(** A run in which the labelled button is pressed and the text fields hold
    the given values. *)
Definition pressing (label : str) (fields : list (str * str)) : ui :=
  {| text_input := fun l =>
       match find (fun kv : str * str => str_eqb (fst kv) l) fields with
       | Some kv => snd kv
       | None => []
       end;
     button := str_eqb label;
     selectbox := fun _ _ => py "fast" |}.

(** The runs of the examples: the key is submitted, a document is
    uploaded, a question is asked. *)
Definition submit_click : ui :=
  pressing (py "Submit API Key") [(py "Enter SambaNova API Key", py "sk-test")].

Definition upload_click : ui :=
  pressing (py "Upload Document") [(py "Enter document URL", guide_url)].

Definition ask_click : ui :=
  pressing (py "Generate Response") [(py "Enter your query", capital_query)].

(** A session in which the key [sk-test] was submitted. *)
Definition key_submitted : list event :=
  [ESessionSet (py "sambanova_key") (py "sk-test")].

(** ** Further texts, replies and worlds for the examples *)

(** A character that shows: neither a control character nor DEL. *)
Definition visible (c : char) : Prop := (32 <= c)%N /\ c <> 127%N.

(** What the script shows once the upload request has its reply
    (lines 171-179): the pause and the success, or the error. *)
Definition after_upload (reply : exn + Response) : list event :=
  match reply with
  | inl e => [EError (py "Error uploading document: ") (Some e)]
  | inr r =>
      if ok r then
        match json r with
        | inl e => [EError (py "Error uploading document: ") (Some e)]
        | inr _ => [ESleep 5;
                    ESuccess (py "Document uploaded and indexed successfully!")]
        end
      else
        [EError (py "Error uploading document: ")
                (Some (Exception (py "Document upload failed: " ++
                                  str_of_int (status_code r) ++ py " " ++ reason r)))]
  end.

(** A URL whose authority opens a bracket and does not close it. *)
Definition unparsable_url : str := py "https://[docs.example.com/guide.pdf".

(** A body that is not JSON, under a success status. *)
Definition undecodable : Response :=
  {| status_code := 200; reason := py "OK";
     json := inl (LibraryError (py "JSONDecodeError") (py "Expecting value")) |}.

Definition world_undecodable : world :=
  reference_world (Some (py "ragie-secret")) (inr undecodable) (inr [py "Paris."]).

(** The second scored chunk has no [text]. *)
Definition partial_body : pyval :=
  PDict [(py "scored_chunks",
          PList [PDict [(py "text", PStr (py "Paris is the capital of France."))];
                 PDict [(py "score", PFloat (py "0.77"))]])].

Definition world_partial : world :=
  reference_world (Some (py "ragie-secret"))
                  (inr (json_response 200 (py "OK") partial_body))
                  (inr [py "Paris."]).

(** [scored_chunks] is [null]; [scored_chunks] is an empty object. *)
Definition world_null_chunks : world :=
  reference_world (Some (py "ragie-secret"))
                  (inr (json_response 200 (py "OK") (PDict [(py "scored_chunks", PNone)])))
                  (inr [py "Paris."]).

Definition world_empty_object : world :=
  reference_world (Some (py "ragie-secret"))
                  (inr (json_response 200 (py "OK") (PDict [(py "scored_chunks", PDict [])])))
                  (inr [py "Paris."]).

(** The model is rate-limited; the model answers with no choice. *)
Definition rate_limited : exn := LibraryError (py "RateLimitError") (py "429").

Definition world_rate_limited : world :=
  reference_world (Some (py "ragie-secret"))
                  (inr (json_response 200 (py "OK") paris_body))
                  (inl rate_limited).

Definition world_no_choice : world :=
  reference_world (Some (py "ragie-secret"))
                  (inr (json_response 200 (py "OK") paris_body))
                  (inr []).

(** The upload button is pressed with a URL and a name. *)
Definition upload_named_click : ui :=
  pressing (py "Upload Document")
           [(py "Enter document URL", guide_url);
            (py "Document name (optional)", py "The guide")].

(** A new key is submitted and a question is asked in the same run. *)
Definition rotate_and_ask_click : ui :=
  {| text_input := fun l =>
       if str_eqb l (py "Enter SambaNova API Key") then py "sk-new"
       else if str_eqb l (py "Enter your query") then capital_query
       else [];
     button := fun l => str_eqb l (py "Submit API Key") ||
                        str_eqb l (py "Generate Response");
     selectbox := fun _ _ => py "fast" |}.

(** What a run shows before it looks for the key (lines 131-148): the page,
    the title, and what pressing the submit button adds. *)
Definition opening_of (u : ui) : list event :=
  EPageConfig (py "RAG Over Online Documents with SambaNova") (py "wide")
  :: EMarkdown title_html true
  :: (if button u (py "Submit API Key") then
        match text_input u (py "Enter SambaNova API Key") with
        | [] => [EError (py "Please enter your SambaNova API key.") None]
        | _ :: _ =>
            [ESessionSet (py "sambanova_key")
                         (text_input u (py "Enter SambaNova API Key"));
             ESuccess (py "SambaNova API key submitted successfully!")]
        end
      else []).

(** What a run shows once the query has its outcome (lines 191-195). *)
Definition after_query (answer : outcome str) : list event :=
  match answer with
  | Return response => [EMarkdown (py "### Response:") false;
                        EMarkdown response false]
  | Raise e => [EError (py "Error generating response: ") (Some e)]
  end.

(** What a run shows between the construction of the pipeline and the upload
    section, and between the two sections (lines 153, 159 and 184). *)
Definition welcome_events : list event :=
  [ESuccess (py "API keys loaded successfully!");
   EMarkdown (py "### " ++ [128196%N] ++ py " Document Upload") false].

Definition query_heading : event :=
  EMarkdown (py "### " ++ [128269%N] ++ py " Query Document") false.

(** The generation key of the session once the submit button has been
    handled: the key just entered, or else the key kept from earlier runs. *)
Definition current_key (u : ui) (h : list event) : option str :=
  if button u (py "Submit API Key") then
    match text_input u (py "Enter SambaNova API Key") with
    | [] => session_get h (py "sambanova_key")
    | _ :: _ => Some (text_input u (py "Enter SambaNova API Key"))
    end
  else session_get h (py "sambanova_key").

(** The upload button is pressed on the URL that the parser rejects. *)
Definition upload_unparsable_click : ui :=
  pressing (py "Upload Document") [(py "Enter document URL", unparsable_url)].

(** What [urlparse] raises on it. *)
Definition rejected : exn :=
  LibraryError (py "ValueError") (py "Invalid IPv6 URL").

(** The client built from the key [sk-new], and the completion request of
    scenario B sent with it. *)
Definition new_client : OpenAI :=
  {| api_key := py "sk-new"; base_url := py "https://api.sambanova.ai/v1" |}.

Definition paris_completion_new_key : event :=
  EChat new_client
        {| model := py "Llama-3.2-11B-Vision-Instruct";
           messages := [ {| role := py "system"; content := paris_prompt |};
                         {| role := py "user"; content := capital_query |} ];
           temperature := PFloat (py "0.1");
           top_p := PFloat (py "0.1") |}
        (inr [py "Paris."]).

(** The upload request of scenario A, with the name [The guide]. *)
Definition guide_upload (reply : exn + Response) : event :=
  EPost (py "https://api.ragie.ai/documents/url")
        (upload_payload (py "fast") (py "The guide") guide_url)
        (upload_headers reference_pipeline) reply.

(** The endpoints answer 300, with a body that decodes. *)
Definition redirect : Response :=
  json_response 300 (py "Multiple Choices") paris_body.

Definition world_redirect : world :=
  reference_world (Some (py "ragie-secret")) (inr redirect) (inr [py "Paris."]).

(** The session after a run in which the key [sk-test] was submitted. *)
Definition after_submission : list event :=
  events_of (run_session world_paris [submit_click] []).

(** * Properties *)

(** ** Texts *)

Lemma str_eqb_eq (a b : str) : str_eqb a b = true <-> a = b.
Proof.
  revert b; induction a as [|x a IH]; intros [|y b]; simpl; split; intro H;
    try reflexivity; try discriminate.
  - apply andb_true_iff in H as [Hx Hab].
    apply N.eqb_eq in Hx. apply IH in Hab. now subst.
  - injection H as -> ->. rewrite N.eqb_refl. now apply IH.
Qed.

Lemma has_char_cons (c x : char) (s : str) :
  has_char c (x :: s) = N.eqb c x || has_char c s.
Proof. reflexivity. Qed.

Lemma starts_with_iff (p s : str) : starts_with p s = true <-> exists b, s = p ++ b.
Proof.
  revert s; induction p as [|x p IH]; intros s; simpl.
  - split; eauto.
  - destruct s as [|y s].
    + split; [discriminate | intros [b Hb]; discriminate].
    + rewrite andb_true_iff, N.eqb_eq, IH. split.
      * intros [-> [b ->]]. now exists b.
      * intros [b Hb]. injection Hb as -> ->. eauto.
Qed.

Lemma is_infix_iff (p s : str) : is_infix p s = true <-> exists a b, s = a ++ p ++ b.
Proof.
  induction s as [|y s IH].
  - simpl. rewrite orb_false_r, starts_with_iff. split.
    + intros [b Hb]. now exists [], b.
    + intros [a [b Hab]]. destruct a; [now exists b | discriminate].
  - cbn [is_infix]. rewrite orb_true_iff, starts_with_iff, IH. split.
    + intros [[b Hb] | [a [b Hab]]].
      * now exists [], b.
      * exists (y :: a), b. now rewrite Hab.
    + intros [[|x a] [b Hab]].
      * left. now exists b.
      * right. injection Hab as _ ->. now exists a, b.
Qed.

(** A pattern cannot run over a character it does not hold. *)
Lemma starts_with_across (c : char) (p a b : str) :
  has_char c p = false -> starts_with p (a ++ c :: b) = starts_with p a.
Proof.
  revert a; induction p as [|x p IH]; intros a Hc; [reflexivity|].
  cbn in Hc. apply orb_false_iff in Hc as [Hx Hp].
  destruct a as [|y a]; simpl.
  - rewrite N.eqb_sym, Hx. reflexivity.
  - now rewrite IH.
Qed.

Lemma occurrences_across (c : char) (p a b : str) :
  p <> [] -> has_char c p = false ->
  occurrences p (a ++ c :: b) = occurrences p a + occurrences p b.
Proof.
  intros Hp Hc. induction a as [|y a IH].
  - change ([] ++ c :: b) with (c :: b). cbn [occurrences].
    replace (starts_with p (c :: b)) with (starts_with p []).
    + destruct p; [contradiction | reflexivity].
    + symmetry. apply (starts_with_across c p [] b Hc).
  - change ((y :: a) ++ c :: b) with (y :: (a ++ c :: b)). cbn [occurrences].
    rewrite IH.
    change (y :: (a ++ c :: b)) with ((y :: a) ++ c :: b).
    rewrite starts_with_across by assumption. lia.
Qed.

Lemma embeds_in_order_after (cs : list str) (x s : str) :
  embeds_in_order cs s -> embeds_in_order cs (x ++ s).
Proof.
  destruct cs as [|c cs]; simpl; [trivial|].
  intros [a [b [-> H]]]. exists (x ++ a), b. now rewrite app_assoc.
Qed.

(** ** Splitting on a separator *)

Lemma split_not_nil (sep : char) (s : str) : split sep s <> [].
Proof.
  destruct s as [|c s]; simpl; [discriminate|].
  destruct (N.eqb c sep); [discriminate|].
  destruct (split sep s); discriminate.
Qed.

Lemma split_single (sep : char) (s seg : str) :
  split sep s = [seg] -> s = seg.
Proof.
  revert seg; induction s as [|c s IH]; intros seg; simpl.
  - intros H. now injection H.
  - destruct (N.eqb c sep).
    + intros H. injection H as _ H. now apply split_not_nil in H.
    + destruct (split sep s) as [|seg' rest] eqn:E; intros H.
      * now apply split_not_nil in E.
      * injection H as <- ->. now rewrite (IH seg').
Qed.

Lemma split_without (sep : char) (s : str) :
  has_char sep s = false -> split sep s = [s].
Proof.
  induction s as [|c s IH]; [reflexivity|].
  cbn. intros H. apply orb_false_iff in H as [Hc Hs].
  rewrite N.eqb_sym, Hc, IH by assumption. reflexivity.
Qed.

(** [split(sep)[-1]] is what follows the last separator. *)
Lemma last_of_split (path : str) :
  final_segment path (last_item (split slash path)).
Proof.
  unfold final_segment, last_item.
  induction path as [|c s [Hno [before [Hs Hb]]]].
  - simpl. split; [reflexivity|]. exists []. auto.
  - cbn [split]. destruct (N.eqb c slash) eqn:Ec.
    + apply N.eqb_eq in Ec. subst c.
      pose proof (split_not_nil slash s) as Hne.
      destruct (split slash s) as [|seg rest]; [contradiction|].
      change (last ([] :: seg :: rest) []) with (last (seg :: rest) []).
      split; [assumption|].
      exists (slash :: before). split.
      * simpl. f_equal. exact Hs.
      * right. destruct Hb as [-> | [b ->]]; [now exists [] | now exists (slash :: b)].
    + destruct (split slash s) as [|seg rest] eqn:E.
      { now apply split_not_nil in E. }
      destruct rest as [|r rest].
      * apply split_single in E. subst seg. cbn [last] in *.
        split; [rewrite has_char_cons, N.eqb_sym, Ec; exact Hno|].
        exists []. auto.
      * change (last ((c :: seg) :: r :: rest) []) with (last (seg :: r :: rest) []).
        split; [assumption|].
        exists (c :: before). split; [simpl; f_equal; exact Hs|].
        right. destruct Hb as [-> | [b ->]]; [|now exists (c :: b)].
        assert (Hs' : has_char slash s = false) by (rewrite Hs; exact Hno).
        apply split_without in Hs'. rewrite Hs' in E. discriminate.
Qed.

(** ** What [repr] does to a text *)

Section ReprFacts.

Variable isprintable : char -> bool.

(** The quote [repr] picks does not occur in a text it leaves as it is. *)
Lemma repr_quote_absent (s : str) :
  repr_verbatim isprintable s = true -> has_char (repr_quote s) s = false.
Proof.
  unfold repr_verbatim, repr_quote. intros H.
  apply andb_true_iff in H as [_ H]. apply negb_true_iff in H.
  destruct (has_char squote s) eqn:Hs, (has_char dquote s) eqn:Hd; simpl in *;
    congruence.
Qed.

Lemma repr_char_copies (quote ch : char) :
  N.eqb ch quote = false ->
  negb (N.eqb ch backslash) && negb (ch <? 32)%N && negb (N.eqb ch 127) &&
    ((ch <? 127)%N || isprintable ch) = true ->
  repr_char isprintable quote ch = [ch].
Proof.
  intros Hq H.
  apply andb_true_iff in H as [H Hp].
  apply andb_true_iff in H as [H H127].
  apply andb_true_iff in H as [Hbs H32].
  apply negb_true_iff in Hbs, H32, H127.
  assert (Hge : (32 <= ch)%N) by now apply N.ltb_ge.
  unfold repr_char. rewrite Hq, Hbs.
  replace (N.eqb ch 9) with false by (symmetry; apply N.eqb_neq; lia).
  replace (N.eqb ch 10) with false by (symmetry; apply N.eqb_neq; lia).
  replace (N.eqb ch 13) with false by (symmetry; apply N.eqb_neq; lia).
  rewrite H32, H127. cbn [orb].
  destruct (ch <? 127)%N; [reflexivity|].
  cbn [orb] in Hp. now rewrite Hp.
Qed.

Lemma flat_map_copies (quote : char) (s : str) :
  has_char quote s = false ->
  forallb (fun ch => negb (N.eqb ch backslash) && negb (ch <? 32)%N &&
                     negb (N.eqb ch 127) && ((ch <? 127)%N || isprintable ch)) s = true ->
  flat_map (repr_char isprintable quote) s = s.
Proof.
  induction s as [|ch s IH]; [reflexivity|].
  rewrite has_char_cons. intros Hq H.
  apply orb_false_iff in Hq as [Hq Hs].
  cbn [forallb] in H. apply andb_true_iff in H as [Hch Hrest].
  cbn [flat_map]. rewrite repr_char_copies, IH; auto.
  now rewrite N.eqb_sym.
Qed.

(** A printable text without backslash that does not mix the two quotes
    is rendered as it is, between quotes. *)
Lemma repr_str_verbatim (s : str) :
  repr_verbatim isprintable s = true ->
  repr_str isprintable s = [repr_quote s] ++ s ++ [repr_quote s].
Proof.
  intros H. unfold repr_str. cbv zeta.
  rewrite flat_map_copies.
  - reflexivity.
  - now apply repr_quote_absent.
  - unfold repr_verbatim in H. now apply andb_true_iff in H as [H _].
Qed.

(** The rendering of a list of texts. *)
Lemma repr_list_of_str (chunks : list str) :
  repr isprintable (PList (map PStr chunks)) =
  py "[" ++ join (py ", ") (map (repr_str isprintable) chunks) ++ py "]".
Proof.
  cbn [repr]. rewrite map_map. reflexivity.
Qed.

Lemma join_cons (sep x : str) (rest : list str) :
  exists tail, join sep (x :: rest) = x ++ tail /\
               (rest = [] -> tail = []) /\
               (rest <> [] -> tail = sep ++ join sep rest).
Proof.
  destruct rest as [|y rest].
  - exists []. simpl. rewrite app_nil_r. repeat split; congruence.
  - exists (sep ++ join sep (y :: rest)). repeat split; congruence.
Qed.

Lemma listing_embeds (chunks : list str) (tail : str) :
  forallb (repr_verbatim isprintable) chunks = true ->
  embeds_in_order chunks
    (join (py ", ") (map (repr_str isprintable) chunks) ++ tail).
Proof.
  revert tail. induction chunks as [|c rest IH]; intros tail H; [exact I|].
  cbn [forallb] in H. apply andb_true_iff in H as [Hc Hrest].
  cbn [map embeds_in_order].
  destruct (join_cons (py ", ") (repr_str isprintable c)
                      (map (repr_str isprintable) rest)) as [t [-> [Hnil Hcons]]].
  rewrite (repr_str_verbatim _ Hc).
  exists [repr_quote c], ([repr_quote c] ++ t ++ tail). split.
  - now rewrite <- !app_assoc.
  - destruct rest as [|c' rest'].
    + exact I.
    + rewrite Hcons by discriminate.
      rewrite <- app_assoc. apply embeds_in_order_after.
      apply embeds_in_order_after. now apply IH.
Qed.

End ReprFacts.

(** ** Reading JSON objects *)

Lemma subscript_member (v : pyval) (key : str) (x : pyval) :
  member v key x -> subscript v key = inr x.
Proof.
  intros [entries [-> [Hnd Hin]]]. unfold subscript.
  induction entries as [|[k y] rest IH]; [contradiction|].
  cbn [find fst]. destruct (str_eqb k key) eqn:Ek.
  - apply str_eqb_eq in Ek. subst k. cbn [snd].
    destruct Hin as [Heq | Hin]; [congruence|].
    inversion Hnd as [|? ? Hnotin _]. exfalso. apply Hnotin.
    change key with (fst (key, x)). now apply in_map.
  - destruct Hin as [Heq | Hin].
    + injection Heq as -> ->.
      assert (str_eqb key key = true) by now apply str_eqb_eq. congruence.
    + inversion Hnd. now apply IH.
Qed.

Lemma subscript_no_member (v : pyval) (key : str) :
  no_member v key -> subscript v key = inl (KeyError key).
Proof.
  intros [entries [-> Hnot]]. unfold subscript.
  induction entries as [|[k y] rest IH]; [reflexivity|].
  cbn [find fst]. destruct (str_eqb k key) eqn:Ek.
  - apply str_eqb_eq in Ek. subst k. exfalso. apply Hnot. now left.
  - apply IH. intros Hin. apply Hnot. now right.
Qed.

Lemma texts_of_members (items texts : list pyval) :
  Forall2 (fun item text => member item (py "text") text) items texts ->
  texts_of items = inr texts.
Proof.
  induction 1 as [|item text items texts Hm _ IH]; [reflexivity|].
  cbn [texts_of]. rewrite (subscript_member Hm). cbn [and_then].
  rewrite IH. reflexivity.
Qed.


(** ** The operations, step by step *)

(** [response.ok] is false for the statuses from 400 to 599, and for no
    other. *)
Lemma ok_false_iff (r : Response) :
  ok r = false <-> (400 <= status_code r < 600)%Z.
Proof.
  unfold ok. rewrite negb_false_iff, andb_true_iff, Z.leb_le, Z.ltb_lt. tauto.
Qed.

Section Runs.

Variable w : world.

Lemma bind_run {A B} (m : M A) (f : A -> M B) (h : list event) :
  bind m f h =
  match m h with
  | (Return a, d) => (fst (f a (h ++ d)), d ++ snd (f a (h ++ d)))
  | (Raise e, d) => (Raise e, d)
  end.
Proof.
  unfold bind. destruct (m h) as [[a|e] d]; [|reflexivity].
  now destruct (f a (h ++ d)).
Qed.

Lemma bind_returns {A B} (m : M A) (f : A -> M B) (h : list event) (a : A)
      (d : list event) :
  m h = (Return a, d) ->
  bind m f h = (fst (f a (h ++ d)), d ++ snd (f a (h ++ d))).
Proof. intros H. now rewrite bind_run, H. Qed.

Lemma bind_emit {B} (e : event) (f : unit -> M B) (h : list event) :
  bind (emit e) f h = (fst (f tt (h ++ [e])), e :: snd (f tt (h ++ [e]))).
Proof. now rewrite bind_run. Qed.

Lemma bind_history {B} (f : list event -> M B) (h : list event) :
  bind history f h = f h h.
Proof.
  rewrite bind_run. unfold history. rewrite app_nil_r.
  now destruct (f h h).
Qed.

Lemma retrieve_chunks_run (p : RAGPipeline) (query scope : str) (h : list event) :
  retrieve_chunks w p query scope h =
  let reply := requests_post w h (RAGIE_RETRIEVAL_URL p)
                 (retrieval_payload query scope) (retrieval_headers p) in
  let sent := EPost (RAGIE_RETRIEVAL_URL p) (retrieval_payload query scope)
                (retrieval_headers p) reply in
  match reply with
  | inl e => (Raise e, [sent])
  | inr r =>
      if ok r then
        match json r with
        | inl e => (Raise e, [sent])
        | inr data =>
            let report := py "Time taken to retrieve document information: " ++
                          elapsed_2f w h (h ++ [sent]) ++ py " seconds" in
            (match scored_chunk_texts data with
             | inl e => Raise e
             | inr texts => Return texts
             end,
             [sent; EInfo report; EPrint report])
        end
      else
        (Raise (Exception (py "Retrieval failed: " ++ str_of_int (status_code r) ++
                           py " " ++ reason r)),
         [sent])
  end.
Proof.
  unfold retrieve_chunks, bind, history, post, emit, lift, ret, raise.
  cbv zeta. cbn [app]. rewrite !app_nil_r.
  destruct (requests_post w h _ _ _) as [e|r]; [reflexivity|].
  destruct (ok r); cbn [negb]; [|reflexivity].
  destruct (json r) as [e|data]; [reflexivity|].
  cbn [app]. rewrite ?app_nil_r.
  destruct (scored_chunk_texts data); reflexivity.
Qed.

Lemma generate_response_run (p : RAGPipeline) (system_prompt query : str)
      (h : list event) :
  generate_response w p system_prompt query h =
  let request :=
    {| model := py "Llama-3.2-11B-Vision-Instruct";
       messages := [ {| role := py "system"; content := system_prompt |};
                     {| role := py "user"; content := query |} ];
       temperature := PFloat (py "0.1");
       top_p := PFloat (py "0.1") |} in
  let reply := chat_completions_create w h (sambanova_client p) request in
  (match reply with
   | inl e => Raise e
   | inr (first :: _) => Return first
   | inr [] => Raise IndexError
   end,
   [EChat (sambanova_client p) request reply]).
Proof.
  unfold generate_response, bind, create, ret, raise. cbv zeta.
  destruct (chat_completions_create w h _ _) as [e|[|first rest]]; reflexivity.
Qed.

Lemma process_query_run (p : RAGPipeline) (query scope : str) (h : list event) :
  process_query w p query scope h =
  match retrieve_chunks w p query scope h with
  | (Return [], d) => (Return no_information, d)
  | (Return (c :: cs), d) =>
      (fst (generate_response w p (create_system_prompt w (c :: cs)) query (h ++ d)),
       d ++ snd (generate_response w p (create_system_prompt w (c :: cs)) query (h ++ d)))
  | (Raise e, d) => (Raise e, d)
  end.
Proof.
  unfold process_query, bind.
  destruct (retrieve_chunks w p query scope h) as [[[|c cs]|e] d]; try reflexivity.
  - unfold ret. now rewrite app_nil_r.
  - now destruct (generate_response w p _ query (h ++ d)).
Qed.

Lemma upload_document_run (p : RAGPipeline) (url : str) (name : option str)
      (mode : str) (h : list event) :
  upload_document w p url name mode h =
  match (if truthy name then inr (match name with Some n => n | None => [] end)
         else default_name w url) with
  | inl e => (Raise e, [])
  | inr n =>
      let reply := requests_post w h (RAGIE_UPLOAD_URL p)
                     (upload_payload mode n url) (upload_headers p) in
      (match reply with
       | inl e => Raise e
       | inr r =>
           if ok r then
             match json r with inl e => Raise e | inr v => Return v end
           else
             Raise (Exception (py "Document upload failed: " ++
                               str_of_int (status_code r) ++ py " " ++ reason r))
       end,
       [EPost (RAGIE_UPLOAD_URL p) (upload_payload mode n url) (upload_headers p) reply])
  end.
Proof.
  unfold upload_document, bind, post, lift, ret, raise. cbv zeta.
  destruct (truthy name); cbn [negb app].
  - rewrite app_nil_r.
    destruct (requests_post w h _ _ _) as [e|r]; [reflexivity|].
    destruct (ok r); cbn [negb]; [|reflexivity].
    destruct (json r); reflexivity.
  - destruct (default_name w url) as [e|n]; [reflexivity|].
    cbn [app]. rewrite app_nil_r.
    destruct (requests_post w h _ _ _) as [e|r]; [reflexivity|].
    destruct (ok r); cbn [negb]; [|reflexivity].
    destruct (json r); reflexivity.
Qed.

End Runs.

(** ** Prompt assembly, retrieval and generation *)

Section PipelineFacts.

Variable w : world.

(** Retrieval never asks for a completion. *)
Lemma retrieve_chunks_never_chats (p : RAGPipeline) (query scope : str) (h : list event) :
  existsb is_chat (events_of (retrieve_chunks w p query scope h)) = false.
Proof.
  rewrite retrieve_chunks_run. cbv zeta.
  destruct (requests_post w h _ _ _) as [e|r]; [reflexivity|].
  destruct (ok r); [|reflexivity].
  destruct (json r) as [e|data]; reflexivity.
Qed.

(** The POST of a retrieval is the first event, and the only POST. *)
Lemma retrieve_chunks_reply (p : RAGPipeline) (query scope : str) (h : list event)
      (url : str) (body : pyval) (headers : list (str * str)) (reply : exn + Response) :
  In (EPost url body headers reply) (events_of (retrieve_chunks w p query scope h)) ->
  reply = requests_post w h (RAGIE_RETRIEVAL_URL p)
            (retrieval_payload query scope) (retrieval_headers p).
Proof.
  rewrite retrieve_chunks_run. cbv zeta.
  destruct (requests_post w h _ _ _) as [e|r].
  - intros [H|[]]. now injection H.
  - destruct (ok r).
    + destruct (json r) as [e|data].
      * intros [H|[]]. now injection H.
      * intros [H|[H|[H|[]]]]; try discriminate. now injection H.
    + intros [H|[]]. now injection H.
Qed.

(** C1, as amended: the prompt is the template around Python's rendering
    of the list of chunks, each chunk as its [repr], in input order and
    separated by a comma and a space inside square brackets.  Chunks that
    [repr] leaves as they are (printable, no backslash, not both kinds of
    quote) therefore occur verbatim and in input order; and a policy clause
    occurs once in the template, plus as often as the rendered chunks
    themselves hold it. *)
Theorem create_system_prompt_renders (chunks : list str) :
  chunks <> [] ->
  let prompt := create_system_prompt w (map PStr chunks) in
  let listing := join (py ", ") (map (repr_str (unicode_printable w)) chunks) in
  prompt = prompt_head ++ py "[" ++ listing ++ py "]" ++ prompt_tail /\
  (forallb (repr_verbatim (unicode_printable w)) chunks = true ->
   embeds_in_order chunks prompt) /\
  (forall clause, In clause policy_clauses ->
     occurrences clause prompt = 1 + occurrences clause listing).
Proof.
  intros _ prompt listing.
  assert (Hshape : prompt = prompt_head ++ py "[" ++ listing ++ py "]" ++ prompt_tail).
  { unfold prompt, create_system_prompt. rewrite repr_list_of_str.
    now rewrite <- !app_assoc. }
  split; [exact Hshape|]. split.
  - intros Hv. rewrite Hshape.
    apply embeds_in_order_after. apply embeds_in_order_after.
    now apply listing_embeds.
  - intros clause Hin. rewrite Hshape.
    change (py "[" ++ listing ++ py "]" ++ prompt_tail)
      with (91%N :: (listing ++ 93%N :: prompt_tail)).
    assert (Hclause : clause <> [] /\ has_char 91%N clause = false /\
                      has_char 93%N clause = false /\
                      occurrences clause prompt_head + occurrences clause prompt_tail = 1).
    { simpl in Hin.
      destruct Hin as [<- | [<- | [<- | []]]]; repeat split;
        try discriminate; vm_compute; reflexivity. }
    destruct Hclause as [Hne [Hopen [Hclose Hcount]]].
    rewrite occurrences_across by assumption.
    rewrite occurrences_across by assumption.
    lia.
Qed.

(** C2: when retrieval yields no chunk, the answer is the fixed sentence
    and no completion is requested. *)
Theorem process_query_without_chunks (p : RAGPipeline) (query scope : str)
        (h d : list event) :
  retrieve_chunks w p query scope h = (Return [], d) ->
  process_query w p query scope h = (Return no_information, d) /\
  existsb is_chat d = false.
Proof.
  intros H. split.
  - rewrite process_query_run. now rewrite H.
  - pose proof (retrieve_chunks_never_chats p query scope h) as Hc.
    now rewrite H in Hc.
Qed.

(** C3, as amended: a retrieval reply whose status is a client or server
    error (400 to 599, where [response.ok] is false) makes the query fail
    with the status and the reason, and no completion is requested. *)
Theorem process_query_retrieval_failure (p : RAGPipeline) (query scope : str)
        (h : list event) (url : str) (body : pyval) (headers : list (str * str))
        (resp : Response) :
  In (EPost url body headers (inr resp))
     (events_of (process_query w p query scope h)) ->
  (400 <= status_code resp < 600)%Z ->
  result_of (process_query w p query scope h) =
    Raise (Exception (py "Retrieval failed: " ++ str_of_int (status_code resp) ++
                      py " " ++ reason resp)) /\
  existsb is_chat (events_of (process_query w p query scope h)) = false.
Proof.
  intros Hin Hbad. apply ok_false_iff in Hbad.
  assert (Hreply : requests_post w h (RAGIE_RETRIEVAL_URL p)
                     (retrieval_payload query scope) (retrieval_headers p) = inr resp).
  { symmetry. apply retrieve_chunks_reply with (url := url) (body := body)
                                                (headers := headers).
    revert Hin. rewrite process_query_run.
    destruct (retrieve_chunks w p query scope h) as [[[|c cs]|e] d];
      cbn [events_of snd]; try tauto.
    rewrite generate_response_run. cbn [snd].
    intros Hin. apply in_app_or in Hin as [Hin|[Hin|[]]]; [assumption|discriminate]. }
  rewrite process_query_run, retrieve_chunks_run. cbv zeta.
  rewrite Hreply, Hbad. split; reflexivity.
Qed.

(** C6: generation sends one request, with the system message and then
    the user message, temperature 0.1, top_p 0.1 and the fixed model; it
    gives back the text of the first choice, and so does [process_query]. *)
Theorem generate_response_request (p : RAGPipeline) (system_prompt query scope : str)
        (h : list event) :
  let request prompt :=
    {| model := py "Llama-3.2-11B-Vision-Instruct";
       messages := [ {| role := py "system"; content := prompt |};
                     {| role := py "user"; content := query |} ];
       temperature := PFloat (py "0.1");
       top_p := PFloat (py "0.1") |} in
  (exists reply,
     events_of (generate_response w p system_prompt query h) =
       [EChat (sambanova_client p) (request system_prompt) reply] /\
     forall first rest, reply = inr (first :: rest) ->
       result_of (generate_response w p system_prompt query h) = Return first) /\
  (forall chunks d first rest,
     retrieve_chunks w p query scope h = (Return chunks, d) ->
     chunks <> [] ->
     chat_completions_create w (h ++ d) (sambanova_client p)
       (request (create_system_prompt w chunks)) = inr (first :: rest) ->
     process_query w p query scope h =
       (Return first,
        d ++ [EChat (sambanova_client p) (request (create_system_prompt w chunks))
                    (inr (first :: rest))])).
Proof.
  intros request. split.
  - rewrite generate_response_run. cbv zeta. fold (request system_prompt).
    eexists. split; [reflexivity|].
    intros first rest ->. reflexivity.
  - intros chunks d first rest Hret Hne Hchat.
    rewrite process_query_run, Hret.
    destruct chunks as [|c cs]; [contradiction|].
    rewrite generate_response_run. cbv zeta.
    fold (request (create_system_prompt w (c :: cs))).
    now rewrite Hchat.
Qed.

(** C8: on a successful reply whose body is an object without
    [scored_chunks], retrieval raises (a [KeyError] naming the field); when
    the member is a list of objects, it gives the [text] member of each, in
    the order of the list. *)
Theorem retrieve_chunks_reads_field (p : RAGPipeline) (query scope : str)
        (h : list event) (url : str) (body : pyval) (headers : list (str * str))
        (resp : Response) (data : pyval) :
  In (EPost url body headers (inr resp))
     (events_of (retrieve_chunks w p query scope h)) ->
  ok resp = true ->
  json resp = inr data ->
  (no_member data (py "scored_chunks") ->
   result_of (retrieve_chunks w p query scope h) = Raise (KeyError (py "scored_chunks"))) /\
  (forall items texts,
     member data (py "scored_chunks") (PList items) ->
     Forall2 (fun item text => member item (py "text") text) items texts ->
     result_of (retrieve_chunks w p query scope h) = Return texts).
Proof.
  intros Hin Hok Hjson. apply retrieve_chunks_reply in Hin.
  rewrite retrieve_chunks_run. cbv zeta. rewrite <- Hin, Hok, Hjson.
  cbn [result_of fst]. unfold scored_chunk_texts. split.
  - intros Hno. now rewrite (subscript_no_member Hno).
  - intros items texts Hm Hall.
    rewrite (subscript_member Hm). cbn [and_then iterate].
    now rewrite (texts_of_members Hall).
Qed.

End PipelineFacts.

(** ** Upload *)

Section UploadFacts.

Variable w : world.

Lemma upload_payload_name (mode name url : str) :
  subscript (upload_payload mode name url) (py "name") = inr (PStr name).
Proof. reflexivity. Qed.

(** The name taken from the URL: the final segment of its path, or the
    fallback when that segment is empty; never the empty text. *)
Lemma default_name_segment (url name : str) :
  default_name w url = inr name ->
  exists path segment,
    urlparse_path w url = inr path /\
    final_segment path segment /\
    (segment <> [] -> name = segment) /\
    (segment = [] -> name = py "document") /\
    name <> [].
Proof.
  unfold default_name. destruct (urlparse_path w url) as [e|path]; [discriminate|].
  cbn [and_then]. intros H. exists path, (last_item (split slash path)).
  split; [reflexivity|]. split; [apply last_of_split|].
  destruct (last_item (split slash path)) as [|c seg]; injection H as <-.
  - repeat split; [congruence | discriminate].
  - repeat split; [discriminate | discriminate].
Qed.

(** C4: without a name, the payload's name is the final path segment of
    the URL, or [document] when that segment is empty; it is never empty. *)
Theorem upload_document_default_name (p : RAGPipeline) (url mode : str)
        (h : list event) (path : str) :
  urlparse_path w url = inr path ->
  exists segment name reply,
    final_segment path segment /\
    (segment <> [] -> name = segment) /\
    (segment = [] -> name = py "document") /\
    name <> [] /\
    events_of (upload_document w p url None mode h) =
      [EPost (RAGIE_UPLOAD_URL p)
             (PDict [(py "mode", PStr mode); (py "name", PStr name); (py "url", PStr url)])
             (upload_headers p) reply].
Proof.
  intros Hpath. rewrite upload_document_run. cbn [truthy].
  destruct (default_name w url) as [e|name] eqn:Hname.
  - unfold default_name in Hname. rewrite Hpath in Hname. cbn in Hname.
    destruct (last_item (split slash path)); discriminate.
  - apply default_name_segment in Hname
      as [path' [segment [Hp [Hseg [Hsome [Hnone Hne]]]]]].
    assert (path' = path) by congruence. subst path'.
    exists segment, name. eexists.
    split; [exact Hseg|]. split; [exact Hsome|].
    split; [exact Hnone|]. split; [exact Hne|]. reflexivity.
Qed.


(** An upload sends at most one request, to the upload endpoint. *)
Lemma upload_document_events (p : RAGPipeline) (url : str) (name : option str)
      (mode : str) (h : list event) :
  events_of (upload_document w p url name mode h) = [] \/
  exists body reply,
    events_of (upload_document w p url name mode h) =
      [EPost (RAGIE_UPLOAD_URL p) body (upload_headers p) reply] /\
    match reply with
    | inl e => result_of (upload_document w p url name mode h) = Raise e
    | inr r =>
        if ok r then result_of (upload_document w p url name mode h) =
                     match json r with inl e => Raise e | inr v => Return v end
        else result_of (upload_document w p url name mode h) =
             Raise (Exception (py "Document upload failed: " ++
                               str_of_int (status_code r) ++ py " " ++ reason r))
    end.
Proof.
  rewrite upload_document_run.
  destruct (if truthy name then _ else _) as [e|n]; [now left|].
  right. cbv zeta. do 2 eexists. split; [reflexivity|].
  destruct (requests_post w h _ _ _) as [e|r]; [reflexivity|].
  destruct (ok r); reflexivity.
Qed.

End UploadFacts.

(** ** The script *)

Ltac in_cases H :=
  repeat (destruct H as [H|H]; [try discriminate|]); try contradiction.

Section MainFacts.

Variable w : world.

Lemma upload_section_run (u : ui) (p : RAGPipeline) (h : list event) :
  upload_section w u p h =
  if button u (py "Upload Document") then
    match text_input u (py "Enter document URL") with
    | [] => (Return tt, [EError (py "Please provide a document URL.") None])
    | c :: rest =>
        let spinner := ESpinner (py "Uploading document...") in
        let upload :=
          upload_document w p (c :: rest)
            (match text_input u (py "Document name (optional)") with
             | _ :: _ => Some (text_input u (py "Document name (optional)"))
             | [] => None
             end)
            (selectbox u (py "Upload mode") [py "fast"; py "accurate"])
            (h ++ [spinner]) in
        (Return tt,
         spinner :: snd upload ++
         match fst upload with
         | Return _ => [ESleep 5; ESuccess (py "Document uploaded and indexed successfully!")]
         | Raise e => [EError (py "Error uploading document: ") (Some e)]
         end)
    end
  else (Return tt, []).
Proof.
  unfold upload_section. destruct (button u _); [|reflexivity].
  destruct (text_input u (py "Enter document URL")) as [|c rest]; [reflexivity|].
  unfold try_except, bind, emit. cbv zeta.
  destruct (upload_document w p (c :: rest) _ _ _) as [[v|e] d]; reflexivity.
Qed.

Lemma query_section_run (u : ui) (p : RAGPipeline) (h : list event) :
  query_section w u p h =
  if button u (py "Generate Response") then
    match text_input u (py "Enter your query") with
    | [] => (Return tt, [EError (py "Please enter a query.") None])
    | c :: rest =>
        let spinner := ESpinner (py "Generating response...") in
        let answer := process_query w p (c :: rest) default_scope (h ++ [spinner]) in
        (Return tt,
         spinner :: snd answer ++
         match fst answer with
         | Return response => [EMarkdown (py "### Response:") false;
                               EMarkdown response false]
         | Raise e => [EError (py "Error generating response: ") (Some e)]
         end)
    end
  else (Return tt, []).
Proof.
  unfold query_section. destruct (button u _); [|reflexivity].
  destruct (text_input u (py "Enter your query")) as [|c rest]; [reflexivity|].
  unfold try_except, bind, emit. cbv zeta.
  destruct (process_query w p (c :: rest) _ _) as [[v|e] d]; reflexivity.
Qed.

Lemma upload_section_returns (u : ui) (p : RAGPipeline) (h : list event) :
  result_of (upload_section w u p h) = Return tt.
Proof.
  rewrite upload_section_run. destruct (button u _); [|reflexivity].
  now destruct (text_input u _).
Qed.

Lemma query_section_returns (u : ui) (p : RAGPipeline) (h : list event) :
  result_of (query_section w u p h) = Return tt.
Proof.
  rewrite query_section_run. destruct (button u _); [|reflexivity].
  now destruct (text_input u _).
Qed.

(** One run of the script: the opening (page, title, submitted key), then
    either nothing, or the error of the constructor, or the two sections. *)
Lemma main_run (u : ui) (h : list event) :
  exists opening,
    Forall quiet_event opening /\
    (forall key value, In (ESessionSet key value) opening ->
                       key = py "sambanova_key" /\ value <> []) /\
    match session_get (h ++ opening) (py "sambanova_key") with
    | None => main w u h = (Return tt, opening)
    | Some key =>
        match __init__ w key with
        | inl e => main w u h = (Return tt, opening ++ [EError [] (Some e)])
        | inr p =>
            exists welcome heading uploaded queried,
              Forall display_event welcome /\
              display_event heading /\
              uploaded = events_of (upload_section w u p (h ++ opening ++ welcome)) /\
              queried = events_of (query_section w u p
                                     (h ++ opening ++ welcome ++ uploaded ++ [heading])) /\
              main w u h =
                (Return tt, opening ++ welcome ++ uploaded ++ [heading] ++ queried)
        end
    end.
Proof.
  set (submitted :=
         if button u (py "Submit API Key") then
           match text_input u (py "Enter SambaNova API Key") with
           | _ :: _ =>
               [ESessionSet (py "sambanova_key")
                            (text_input u (py "Enter SambaNova API Key"));
                ESuccess (py "SambaNova API key submitted successfully!")]
           | [] => [EError (py "Please enter your SambaNova API key.") None]
           end
         else []).
  exists (EPageConfig (py "RAG Over Online Documents with SambaNova") (py "wide")
          :: EMarkdown title_html true :: submitted).
  split; [|split].
  - subst submitted. destruct (button u _); [|repeat constructor].
    destruct (text_input u _); repeat constructor.
  - subst submitted. intros key value [H|[H|H]]; try discriminate.
    destruct (button u _); [|contradiction].
    destruct (text_input u _) as [|c rest] eqn:E.
    + destruct H as [H|[]]. discriminate.
    + destruct H as [H|[H|[]]]; [|discriminate].
      injection H as <- <-. split; [reflexivity | discriminate].
  - unfold main. rewrite !bind_emit.
    match goal with
    | |- context [bind (if button u ?l then ?a else ?b) ?k ?hh] =>
        assert (Hsub : (if button u l then a else b) hh = (Return tt, submitted))
    end.
    { subst submitted. destruct (button u _); [|reflexivity].
      destruct (text_input u _); reflexivity. }
    rewrite bind_returns with (a := tt) (d := submitted) by exact Hsub.
    rewrite bind_history.
    rewrite <- !app_assoc. cbn [app fst snd].
    destruct (session_get _ _) as [key|]; [|now rewrite app_nil_r].
    destruct (__init__ w key) as [e|p]; [reflexivity|].
    set (opening := EPageConfig (py "RAG Over Online Documents with SambaNova") (py "wide")
                    :: EMarkdown title_html true :: submitted).
    set (welcome := [ESuccess (py "API keys loaded successfully!");
                     EMarkdown (py "### " ++ [128196%N] ++ py " Document Upload") false]).
    set (heading := EMarkdown (py "### " ++ [128269%N] ++ py " Query Document") false).
    exists welcome, heading,
      (events_of (upload_section w u p (h ++ opening ++ welcome))),
      (events_of (query_section w u p
                    (h ++ opening ++ welcome ++
                     events_of (upload_section w u p (h ++ opening ++ welcome)) ++
                     [heading]))).
    split; [repeat constructor|]. split; [exact I|].
    split; [reflexivity|]. split; [reflexivity|].
    rewrite !bind_emit. cbn [fst snd].
    rewrite <- !app_assoc. cbn [app]. fold opening. fold welcome.
    pose proof (upload_section_returns u p (h ++ opening ++ welcome)) as Hup.
    unfold result_of in Hup.
    destruct (upload_section w u p (h ++ opening ++ welcome)) as [o uploaded] eqn:Eup.
    cbn [fst] in Hup. subst o.
    rewrite bind_returns with (a := tt) (d := uploaded) by exact Eup.
    rewrite bind_emit. cbn [fst snd events_of].
    rewrite <- !app_assoc. cbn [app].
    pose proof (query_section_returns u p
                  (h ++ opening ++ welcome ++ uploaded ++ [heading])) as Hq.
    unfold result_of in Hq. cbn [app] in Hq.
    f_equal; solve [exact Hq | reflexivity].
Qed.

(** *** What each part may do *)

Lemma process_query_events (p : RAGPipeline) (query scope : str) (h : list event) :
  Forall (query_event p) (events_of (process_query w p query scope h)).
Proof.
  rewrite process_query_run, retrieve_chunks_run. cbv zeta.
  destruct (requests_post w h _ _ _) as [e|r]; [repeat constructor|].
  destruct (ok r); [|repeat constructor].
  destruct (json r) as [e|data]; [repeat constructor|].
  destruct (scored_chunk_texts data) as [e|[|c cs]]; try (repeat constructor).
  rewrite generate_response_run. repeat constructor.
Qed.

Lemma query_section_events (u : ui) (p : RAGPipeline) (h : list event) :
  Forall (query_event p) (events_of (query_section w u p h)).
Proof.
  rewrite query_section_run. destruct (button u _); [|constructor].
  destruct (text_input u _) as [|c rest]; [repeat constructor|].
  cbv zeta. cbn [events_of snd]. constructor; [exact I|].
  apply Forall_app. split; [apply process_query_events|].
  destruct (fst (process_query w p _ _ _)); repeat constructor.
Qed.

Lemma upload_section_events (u : ui) (p : RAGPipeline) (h : list event) :
  Forall (upload_event p) (events_of (upload_section w u p h)).
Proof.
  rewrite upload_section_run. destruct (button u _); [|constructor].
  destruct (text_input u (py "Enter document URL")) as [|c rest]; [repeat constructor|].
  cbv zeta. cbn [events_of snd]. constructor; [exact I|].
  apply Forall_app. split.
  - destruct (upload_document_events w p (c :: rest)
                (match text_input u (py "Document name (optional)") with
                 | [] => None
                 | _ :: _ => Some (text_input u (py "Document name (optional)"))
                 end)
                (selectbox u (py "Upload mode") [py "fast"; py "accurate"])
                (h ++ [ESpinner (py "Uploading document...")]))
      as [Hnone | [body [reply [Hone _]]]]; unfold events_of in *.
    + rewrite Hnone. constructor.
    + rewrite Hone. repeat constructor.
  - destruct (fst (upload_document w p _ _ _ _)); repeat constructor.
Qed.

(** When the upload endpoint answers with a failure status, the section
    sends that one request, shows the error and does not pause. *)
Lemma upload_section_failure (u : ui) (p : RAGPipeline) (h : list event)
      (target : str) (body : pyval) (headers : list (str * str)) (resp : Response) :
  In (EPost target body headers (inr resp)) (events_of (upload_section w u p h)) ->
  ok resp = false ->
  existsb is_sleep (events_of (upload_section w u p h)) = false /\
  List.length (filter is_post (events_of (upload_section w u p h))) = 1 /\
  In (EError (py "Error uploading document: ")
             (Some (Exception (py "Document upload failed: " ++
                               str_of_int (status_code resp) ++ py " " ++ reason resp))))
     (events_of (upload_section w u p h)).
Proof.
  rewrite upload_section_run. destruct (button u _); [|intros []].
  destruct (text_input u (py "Enter document URL")) as [|c rest].
  { intros [H|[]]. discriminate. }
  cbv zeta. cbn [events_of snd].
  match goal with
  | |- context [upload_document w p ?a ?b ?m ?hh] =>
      destruct (upload_document_events w p a b m hh)
        as [Hnone | [sent [reply [Hone Hres]]]];
      unfold events_of, result_of in *;
      destruct (upload_document w p a b m hh) as [o d]
  end; cbn [fst snd] in *; subst d; cbn [app].
  - intros Hin. destruct o; in_cases Hin.
  - intros [H|[H|Hin]] Hbad; [discriminate| |].
    + injection H as _ _ _ ->. rewrite Hbad in Hres. subst o.
      cbn. repeat split. right. right. now left.
    + destruct o; in_cases Hin.
Qed.

(** *** The whole run *)

Lemma existsb_none {A} (P : A -> Prop) (f : A -> bool) (l : list A) :
  Forall P l -> (forall e, P e -> f e = false) -> existsb f l = false.
Proof.
  intros Hall Hf. induction Hall as [|e l He _ IH]; [reflexivity|].
  cbn. now rewrite (Hf e He), IH.
Qed.

Lemma filter_none {A} (P : A -> Prop) (f : A -> bool) (l : list A) :
  Forall P l -> (forall e, P e -> f e = false) -> filter f l = [].
Proof.
  intros Hall Hf. induction Hall as [|e l He _ IH]; [reflexivity|].
  cbn. now rewrite (Hf e He), IH.
Qed.

Lemma display_is_quiet (e : event) : display_event e -> quiet_event e.
Proof. now destruct e. Qed.

(** What the constructor builds. *)
Lemma init_builds (key : str) (p : RAGPipeline) :
  __init__ w key = inr p ->
  truthy (RAGIE_API_KEY w) = true /\
  ragie_api_key p = RAGIE_API_KEY w /\
  sambanova_api_key p = key /\
  api_key (sambanova_client p) = key /\
  RAGIE_UPLOAD_URL p = py "https://api.ragie.ai/documents/url" /\
  RAGIE_RETRIEVAL_URL p = py "https://api.ragie.ai/retrievals".
Proof.
  unfold __init__. destruct (truthy (RAGIE_API_KEY w)); [|discriminate].
  cbn [negb]. intros H. injection H as <-. repeat split.
Qed.

Lemma main_returns (u : ui) (h : list event) :
  result_of (main w u h) = Return tt.
Proof.
  destruct (main_run u h) as [opening [_ [_ Hrun]]].
  destruct (session_get _ _) as [key|]; [|now rewrite Hrun].
  destruct (__init__ w key) as [e|p]; [now rewrite Hrun|].
  destruct Hrun as [? [? [? [? [_ [_ [_ [_ Hrun]]]]]]]]. now rewrite Hrun.
Qed.

Lemma run_session_cons (u : ui) (rest : list ui) (h : list event) :
  events_of (run_session w (u :: rest) h) =
  events_of (main w u h) ++
  events_of (run_session w rest (h ++ events_of (main w u h))).
Proof.
  cbn [run_session]. pose proof (main_returns u h) as Hret.
  unfold result_of, events_of in *.
  destruct (main w u h) as [o d] eqn:E. cbn [fst snd] in *. subst o.
  now rewrite bind_returns with (a := tt) (d := d) by exact E.
Qed.

Lemma session_get_in (h : list event) (key value : str) :
  session_get h key = Some value -> In (ESessionSet key value) h.
Proof.
  induction h as [|e h IH]; [discriminate|].
  cbn [session_get]. destruct (session_get h key) as [v|].
  - intros H. right. apply IH. exact H.
  - destruct e; try discriminate.
    destruct (str_eqb key0 key) eqn:Ek; [|discriminate].
    apply str_eqb_eq in Ek. subst key0. intros H. injection H as ->. now left.
Qed.

(** A request made during a run comes from a pipeline that the run built
    from the session's key; the keys of the session stay non-empty. *)
Lemma main_requests (u : ui) (h : list event) :
  session_ok h ->
  session_ok (h ++ events_of (main w u h)) /\
  forall e, In e (events_of (main w u h)) -> is_network e = true ->
    exists key p, key <> [] /\ __init__ w key = inr p /\
                  (upload_event p e \/ query_event p e).
Proof.
  intros Hok.
  destruct (main_run u h) as [opening [Hquiet [Hkeys Hrun]]].
  assert (Hok' : session_ok (h ++ opening)).
  { intros key value Hin. apply in_app_or in Hin as [Hin|Hin].
    - now apply (Hok key value).
    - now apply (Hkeys key value). }
  assert (Hsilent : forall e, In e opening -> is_network e = true -> False).
  { intros e Hin Hnet. rewrite Forall_forall in Hquiet.
    apply Hquiet in Hin. now destruct e. }
  destruct (session_get (h ++ opening) (py "sambanova_key")) as [key|] eqn:Ekey.
  - apply session_get_in in Ekey. apply Hok' in Ekey.
    destruct (__init__ w key) as [e|p] eqn:Einit.
    + rewrite Hrun. cbn [events_of snd]. split.
      * intros k v Hin. rewrite app_assoc in Hin.
        apply in_app_or in Hin as [Hin|[Hin|[]]]; [|discriminate].
        now apply (Hok' k v).
      * intros e' Hin Hnet. apply in_app_or in Hin as [Hin|[Hin|[]]].
        -- now destruct (Hsilent e' Hin Hnet).
        -- subst e'. discriminate.
    + destruct Hrun as [welcome [heading [uploaded [queried
                          [Hwel [Hhead [Hup [Hq Hrun]]]]]]]].
      rewrite Hrun. cbn [events_of snd].
      pose proof (upload_section_events u p (h ++ opening ++ welcome)) as Hue.
      pose proof (query_section_events u p
                    (h ++ opening ++ welcome ++ uploaded ++ [heading])) as Hqe.
      rewrite <- Hup in Hue. rewrite <- Hq in Hqe.
      rewrite Forall_forall in Hwel, Hue, Hqe.
      split.
      * intros k v Hin. rewrite app_assoc in Hin.
        apply in_app_or in Hin as [Hin|Hin]; [now apply (Hok' k v)|].
        exfalso.
        apply in_app_or in Hin as [Hin|Hin]; [now apply Hwel in Hin|].
        apply in_app_or in Hin as [Hin|Hin]; [now apply Hue in Hin|].
        apply in_app_or in Hin as [[Hin|[]]|Hin]; [now subst heading|].
        now apply Hqe in Hin.
      * intros e' Hin Hnet. exists key, p. split; [exact Ekey|]. split; [exact Einit|].
        apply in_app_or in Hin as [Hin|Hin]; [now destruct (Hsilent e' Hin Hnet)|].
        apply in_app_or in Hin as [Hin|Hin].
        { apply Hwel in Hin. now destruct e'. }
        apply in_app_or in Hin as [Hin|Hin]; [left; now apply Hue|].
        apply in_app_or in Hin as [[Hin|[]]|Hin]; [|right; now apply Hqe].
        subst e'. now destruct heading.
  - rewrite Hrun. cbn [events_of snd]. split; [exact Hok'|].
    intros e Hin Hnet. now destruct (Hsilent e Hin Hnet).
Qed.

Lemma run_session_requests (runs : list ui) (h : list event) :
  session_ok h ->
  forall e, In e (events_of (run_session w runs h)) -> is_network e = true ->
    exists key p, key <> [] /\ __init__ w key = inr p /\
                  (upload_event p e \/ query_event p e).
Proof.
  revert h. induction runs as [|u rest IH]; intros h Hok e Hin Hnet.
  - destruct Hin.
  - rewrite run_session_cons in Hin.
    destruct (main_requests u Hok) as [Hok' Hmain].
    apply in_app_or in Hin as [Hin|Hin].
    + now apply Hmain.
    + now apply (IH _ Hok').
Qed.

Lemma posts_of_upload (p : RAGPipeline) (target : str) (l : list event) :
  Forall (upload_event p) l -> RAGIE_UPLOAD_URL p = target ->
  filter (is_post_to target) l = filter is_post l.
Proof.
  intros Hall <-. induction Hall as [|e l He _ IH]; [reflexivity|].
  cbn [filter]. rewrite IH. destruct e; try reflexivity.
  cbn in He. subst url. cbn.
  now replace (str_eqb (RAGIE_UPLOAD_URL p) (RAGIE_UPLOAD_URL p)) with true
    by (symmetry; now apply str_eqb_eq).
Qed.

(** C5, as amended: when the upload endpoint answers with a client or
    server error (400 to 599, where [response.ok] is false), the upload
    raises with the status and the reason after that single request; the
    script then shows the error, sends no second upload request and does
    not pause. *)
Theorem upload_failure_reported :
  (forall p url name mode h target body headers resp,
     In (EPost target body headers (inr resp))
        (events_of (upload_document w p url name mode h)) ->
     (400 <= status_code resp < 600)%Z ->
     result_of (upload_document w p url name mode h) =
       Raise (Exception (py "Document upload failed: " ++
                         str_of_int (status_code resp) ++ py " " ++ reason resp)) /\
     List.length (filter is_post (events_of (upload_document w p url name mode h))) = 1) /\
  (forall u h body headers resp,
     In (EPost (py "https://api.ragie.ai/documents/url") body headers (inr resp))
        (events_of (main w u h)) ->
     (400 <= status_code resp < 600)%Z ->
     existsb is_sleep (events_of (main w u h)) = false /\
     List.length (filter (is_post_to (py "https://api.ragie.ai/documents/url"))
                         (events_of (main w u h))) = 1 /\
     In (EError (py "Error uploading document: ")
                (Some (Exception (py "Document upload failed: " ++
                                  str_of_int (status_code resp) ++ py " " ++
                                  reason resp))))
        (events_of (main w u h))).
Proof.
  split.
  - intros p url name mode h target body headers resp Hin Hbad.
    apply ok_false_iff in Hbad.
    destruct (upload_document_events w p url name mode h)
      as [Hnone | [sent [reply [Hone Hres]]]].
    + rewrite Hnone in Hin. destruct Hin.
    + rewrite Hone in *. destruct Hin as [H|[]].
      injection H as _ _ _ ->. rewrite Hbad in Hres. now split.
  - intros u h body headers resp Hin Hbad. apply ok_false_iff in Hbad.
    destruct (main_run u h) as [opening [Hquiet [_ Hrun]]].
    assert (Hnot : forall l, Forall quiet_event l ->
              ~ In (EPost (py "https://api.ragie.ai/documents/url") body headers
                          (inr resp)) l).
    { intros l Hl Hx. rewrite Forall_forall in Hl. now apply Hl in Hx. }
    destruct (session_get _ _) as [key|].
    2:{ rewrite Hrun in Hin. now apply Hnot in Hin. }
    destruct (__init__ w key) as [e|p] eqn:Einit.
    { rewrite Hrun in Hin. cbn [events_of snd] in Hin.
      apply in_app_or in Hin as [Hin|[Hin|[]]]; [now apply Hnot in Hin | discriminate]. }
    destruct Hrun as [welcome [heading [uploaded [queried
                        [Hwel [Hhead [Hup [Hq Hrun]]]]]]]].
    apply init_builds in Einit as [_ [_ [_ [_ [Hupload Hretrieval]]]]].
    pose proof (upload_section_events u p (h ++ opening ++ welcome)) as Hue.
    pose proof (query_section_events u p
                  (h ++ opening ++ welcome ++ uploaded ++ [heading])) as Hqe.
    rewrite <- Hup in Hue. rewrite <- Hq in Hqe.
    assert (Hwq : Forall quiet_event welcome).
    { eapply Forall_impl; [|exact Hwel]. apply display_is_quiet. }
    rewrite Hrun in *. cbn [events_of snd] in *.
    assert (Hin' : In (EPost (py "https://api.ragie.ai/documents/url") body headers
                             (inr resp)) uploaded).
    { apply in_app_or in Hin as [Hin|Hin]; [now apply Hnot in Hin|].
      apply in_app_or in Hin as [Hin|Hin]; [now apply Hnot in Hin|].
      apply in_app_or in Hin as [Hin|Hin]; [exact Hin|].
      apply in_app_or in Hin as [[Hin|[]]|Hin]; [now subst heading|].
      rewrite Forall_forall in Hqe. apply Hqe in Hin. cbn in Hin.
      rewrite Hretrieval in Hin. discriminate. }
    rewrite Hup in Hin'.
    pose proof upload_section_failure as Hfail.
    specialize (Hfail _ _ _ _ _ _ _ Hin' Hbad) as [Hsleep [Hcount Herr]].
    rewrite <- Hup in Hsleep, Hcount, Herr.
    assert (Hhq : Forall quiet_event [heading]).
    { constructor; [now apply display_is_quiet | constructor]. }
    split; [|split].
    + assert (S1 : existsb is_sleep opening = false)
        by (eapply existsb_none; [exact Hquiet | now intros []]).
      assert (S2 : existsb is_sleep welcome = false)
        by (eapply existsb_none; [exact Hwq | now intros []]).
      assert (S3 : existsb is_sleep [heading] = false)
        by (eapply existsb_none; [exact Hhq | now intros []]).
      assert (S4 : existsb is_sleep queried = false)
        by (eapply existsb_none; [exact Hqe | now intros []]).
      now rewrite !existsb_app, S1, S2, Hsleep, S3, S4.
    + set (to_upload := is_post_to (py "https://api.ragie.ai/documents/url")).
      assert (F1 : filter to_upload opening = [])
        by (eapply filter_none; [exact Hquiet | now intros []]).
      assert (F2 : filter to_upload welcome = [])
        by (eapply filter_none; [exact Hwq | now intros []]).
      assert (F3 : filter to_upload [heading] = [])
        by (eapply filter_none; [exact Hhq | now intros []]).
      assert (F4 : filter to_upload queried = []).
      { eapply filter_none; [exact Hqe|].
        intros [] He; try reflexivity. cbn in He. subst url.
        unfold to_upload. cbn [is_post_to]. rewrite Hretrieval. reflexivity. }
      assert (F5 : filter to_upload uploaded = filter is_post uploaded)
        by (apply posts_of_upload with (p := p); assumption).
      now rewrite !filter_app, F1, F2, F3, F4, F5, !length_app, Hcount.
    + apply in_or_app. right. apply in_or_app. right. apply in_or_app. now left.
Qed.

(** C7: without the retrieval key the constructor raises at once, and no
    run of the script reaches a remote service. *)
Theorem missing_ragie_key :
  truthy (RAGIE_API_KEY w) = false ->
  (forall key,
     __init__ w key =
     inl (Exception (py "Missing Ragie API key! Please check your .env file."))) /\
  (forall runs,
     existsb is_network (events_of (run_session w runs [])) = false).
Proof.
  intros Hmissing. split.
  - intros key. unfold __init__. now rewrite Hmissing.
  - intros runs.
    assert (Hok : session_ok []) by (intros key value []).
    destruct (existsb is_network (events_of (run_session w runs []))) eqn:E;
      [|reflexivity].
    apply existsb_exists in E as [e [Hin Hnet]].
    destruct (run_session_requests runs Hok e Hin Hnet) as [key [p [_ [Hinit _]]]].
    apply init_builds in Hinit as [Hkey _]. congruence.
Qed.

End MainFacts.

(** * The properties at work on the reference worlds *)

(** C1 does not hold as first stated: a chunk with a line break is not in
    the prompt verbatim ([repr] writes the break as a backslash and an [n]),
    and a chunk that quotes the persona clause makes the clause occur twice. *)
Lemma create_system_prompt_not_verbatim :
  ~ embeds_in_order [broken_chunk]
      (create_system_prompt world_paris [PStr broken_chunk]) /\
  occurrences persona_clause (create_system_prompt world_paris [PStr persona_clause]) = 2.
Proof.
  split.
  - intros [a [b [H _]]].
    assert (Hinfix : is_infix broken_chunk
                       (create_system_prompt world_paris [PStr broken_chunk]) = true).
    { apply is_infix_iff. now exists a, b. }
    vm_compute in Hinfix. discriminate.
  - vm_compute. reflexivity.
Qed.

(** Scenario B of the specification: both passages are in the prompt, in
    order, and each policy clause occurs once. *)
Lemma create_system_prompt_renders_paris :
  embeds_in_order paris_chunks paris_prompt /\
  occurrences persona_clause paris_prompt = 1 /\
  occurrences no_xml_clause paris_prompt = 1 /\
  occurrences empty_result_clause paris_prompt = 1.
Proof.
  assert (Hne : paris_chunks <> []) by discriminate.
  destruct (@create_system_prompt_renders world_paris paris_chunks Hne)
    as [_ [Hembeds Hcount]].
  fold paris_prompt in Hembeds, Hcount.
  split; [apply Hembeds; vm_compute; reflexivity|].
  split; [|split].
  - rewrite (Hcount persona_clause) by (left; reflexivity). vm_compute. reflexivity.
  - rewrite (Hcount no_xml_clause) by (right; left; reflexivity). vm_compute. reflexivity.
  - rewrite (Hcount empty_result_clause) by (right; right; left; reflexivity).
    vm_compute. reflexivity.
Defined.

(** Scenario C: no chunk, the fixed answer, no completion requested. *)
Lemma process_query_without_chunks_empty :
  process_query world_empty reference_pipeline capital_query default_scope [] =
    (Return no_information,
     events_of (retrieve_chunks world_empty reference_pipeline capital_query
                                default_scope [])) /\
  existsb is_chat
    (events_of (retrieve_chunks world_empty reference_pipeline capital_query
                                default_scope [])) = false.
Proof.
  apply (@process_query_without_chunks world_empty reference_pipeline capital_query
           default_scope []).
  vm_compute. reflexivity.
Defined.

(** A 503 from the retrieval endpoint. *)
Lemma process_query_retrieval_failure_503 :
  result_of (process_query world_unavailable reference_pipeline capital_query
                           default_scope []) =
    Raise (Exception (py "Retrieval failed: 503 Service Unavailable")) /\
  existsb is_chat
    (events_of (process_query world_unavailable reference_pipeline capital_query
                              default_scope [])) = false.
Proof.
  apply (@process_query_retrieval_failure world_unavailable reference_pipeline
           capital_query default_scope []
           (RAGIE_RETRIEVAL_URL reference_pipeline)
           (retrieval_payload capital_query default_scope)
           (retrieval_headers reference_pipeline)
           unavailable).
  - vm_compute. left. reflexivity.
  - simpl. lia.
Defined.

(** C3 does not hold as first stated, for every status that is not a
    success: on a 300 with a body that decodes, [response.ok] is true, the
    chunks are read and a completion is requested and returned. *)
Lemma retrieval_redirect_is_answered :
  status_code redirect = 300%Z /\
  events_of (process_query world_redirect reference_pipeline capital_query
                           default_scope []) =
    [EPost (RAGIE_RETRIEVAL_URL reference_pipeline)
           (retrieval_payload capital_query default_scope)
           (retrieval_headers reference_pipeline) (inr redirect);
     EInfo (py "Time taken to retrieve document information: 0.42 seconds");
     EPrint (py "Time taken to retrieve document information: 0.42 seconds");
     paris_completion] /\
  result_of (process_query world_redirect reference_pipeline capital_query
                           default_scope []) = Return (py "Paris.").
Proof. repeat split; vm_compute; reflexivity. Qed.

(** Scenario A: the name of [guide.pdf] is taken from the URL. *)
Lemma upload_document_default_name_guide :
  exists segment name reply,
    final_segment (py "/guide.pdf") segment /\
    (segment <> [] -> name = segment) /\
    (segment = [] -> name = py "document") /\
    name <> [] /\
    events_of (upload_document world_paris reference_pipeline guide_url None
                               default_mode []) =
      [EPost (RAGIE_UPLOAD_URL reference_pipeline)
             (PDict [(py "mode", PStr default_mode); (py "name", PStr name);
                     (py "url", PStr guide_url)])
             (upload_headers reference_pipeline) reply].
Proof.
  apply (@upload_document_default_name world_paris reference_pipeline guide_url
           default_mode [] (py "/guide.pdf")).
  vm_compute. reflexivity.
Defined.

Example upload_document_names_guide_pdf :
  events_of (upload_document world_paris reference_pipeline guide_url None
                             default_mode []) =
    [EPost (py "https://api.ragie.ai/documents/url")
           (PDict [(py "mode", PStr (py "fast")); (py "name", PStr (py "guide.pdf"));
                   (py "url", PStr guide_url)])
           (upload_headers reference_pipeline)
           (inr (json_response 200 (py "OK") paris_body))].
Proof. vm_compute. reflexivity. Qed.

Example upload_document_names_document :
  events_of (upload_document world_paris reference_pipeline
                             (py "https://example.com/") None default_mode []) =
    [EPost (py "https://api.ragie.ai/documents/url")
           (PDict [(py "mode", PStr (py "fast")); (py "name", PStr (py "document"));
                   (py "url", PStr (py "https://example.com/"))])
           (upload_headers reference_pipeline)
           (inr (json_response 200 (py "OK") paris_body))].
Proof. vm_compute. reflexivity. Qed.

(** A 503 from the upload endpoint, in [upload_document] and in the script. *)
Lemma upload_failure_reported_503 :
  result_of (upload_document world_unavailable reference_pipeline guide_url None
                             default_mode []) =
    Raise (Exception (py "Document upload failed: 503 Service Unavailable")) /\
  existsb is_sleep (events_of (main world_unavailable upload_click key_submitted)) = false /\
  List.length (filter (is_post_to (py "https://api.ragie.ai/documents/url"))
                      (events_of (main world_unavailable upload_click key_submitted))) = 1.
Proof.
  destruct (@upload_failure_reported world_unavailable) as [Hcall Hscript].
  split.
  - apply (Hcall reference_pipeline guide_url None default_mode []
                 (RAGIE_UPLOAD_URL reference_pipeline)
                 (upload_payload default_mode (py "guide.pdf") guide_url)
                 (upload_headers reference_pipeline) unavailable).
    + vm_compute. left. reflexivity.
    + simpl. lia.
  - destruct (Hscript upload_click key_submitted
                      (upload_payload (py "fast") (py "guide.pdf") guide_url)
                      (upload_headers reference_pipeline) unavailable)
      as [Hsleep [Hcount _]].
    + vm_compute. do 5 right. left. reflexivity.
    + simpl. lia.
    + now split.
Defined.

(** C5 does not hold as first stated, for every status that is not a
    success: on a 300 with a body that decodes, [response.ok] is true, the
    upload returns the body, and the script pauses and shows the success. *)
Lemma upload_redirect_is_a_success :
  status_code redirect = 300%Z /\
  upload_document world_redirect reference_pipeline guide_url None default_mode [] =
    (Return paris_body,
     [EPost (RAGIE_UPLOAD_URL reference_pipeline)
            (upload_payload default_mode (py "guide.pdf") guide_url)
            (upload_headers reference_pipeline) (inr redirect)]) /\
  events_of (main world_redirect upload_click key_submitted) =
    opening_of upload_click ++ welcome_events ++
    [ESpinner (py "Uploading document...");
     EPost (py "https://api.ragie.ai/documents/url")
           (upload_payload (py "fast") (py "guide.pdf") guide_url)
           (upload_headers reference_pipeline) (inr redirect);
     ESleep 5;
     ESuccess (py "Document uploaded and indexed successfully!");
     query_heading].
Proof. repeat split; vm_compute; reflexivity. Qed.

(** Scenario B, generation: the request that is sent and the answer that
    comes back. *)
Lemma generate_response_request_paris :
  generate_response world_paris reference_pipeline paris_prompt capital_query [] =
    (Return (py "Paris."), [paris_completion]) /\
  process_query world_paris reference_pipeline capital_query default_scope [] =
    (Return (py "Paris."),
     events_of (retrieve_chunks world_paris reference_pipeline capital_query
                                default_scope []) ++ [paris_completion]).
Proof.
  destruct (@generate_response_request world_paris reference_pipeline paris_prompt
              capital_query default_scope [])
    as [[reply [Hevents Hfirst]] Hquery].
  split.
  - assert (Hreply : reply = inr [py "Paris."]).
    { vm_compute in Hevents. now injection Hevents. }
    specialize (Hfirst (py "Paris.") [] Hreply).
    unfold result_of, events_of in *.
    destruct (generate_response world_paris reference_pipeline paris_prompt
                                capital_query []) as [o d].
    cbn [fst snd] in *. subst o d reply. reflexivity.
  - apply (Hquery (map PStr paris_chunks)
                  (events_of (retrieve_chunks world_paris reference_pipeline
                                              capital_query default_scope []))
                  (py "Paris.") []).
    + vm_compute. reflexivity.
    + discriminate.
    + reflexivity.
Defined.

(** Without [RAGIE_API_KEY] nothing is requested, whatever is pressed. *)
Lemma missing_ragie_key_here :
  __init__ world_without_key (py "sk-test") =
    inl (Exception (py "Missing Ragie API key! Please check your .env file.")) /\
  existsb is_network
    (events_of (run_session world_without_key [submit_click; ask_click] [])) = false.
Proof.
  assert (Hmissing : truthy (RAGIE_API_KEY world_without_key) = false) by reflexivity.
  destruct (@missing_ragie_key world_without_key Hmissing) as [Hinit Hquiet].
  split; [apply Hinit | apply Hquiet].
Defined.

(** Scenario B, retrieval: the texts of the two scored chunks, in order;
    and a body without the field. *)
Lemma retrieve_chunks_reads_field_paris :
  result_of (retrieve_chunks world_paris reference_pipeline capital_query
                             default_scope []) =
    Return (map PStr paris_chunks).
Proof.
  destruct (@retrieve_chunks_reads_field world_paris reference_pipeline capital_query
              default_scope []
              (RAGIE_RETRIEVAL_URL reference_pipeline)
              (retrieval_payload capital_query default_scope)
              (retrieval_headers reference_pipeline)
              (json_response 200 (py "OK") paris_body) paris_body)
    as [_ Hpresent].
  - vm_compute. left. reflexivity.
  - reflexivity.
  - reflexivity.
  - apply (Hpresent
             [PDict [(py "text", PStr (py "Paris is the capital of France."));
                     (py "score", PFloat (py "0.91"))];
              PDict [(py "text", PStr (py "It has a population of 2.1 million."));
                     (py "score", PFloat (py "0.77"))]]).
    + eexists. split; [reflexivity|]. split.
      * repeat constructor. intros [].
      * left. reflexivity.
    + assert (Hkeys : NoDup [py "text"; py "score"]).
      { repeat constructor; [|intros []].
        intros [H|[]]. vm_compute in H. discriminate. }
      repeat constructor;
        (eexists; split; [reflexivity|]; split; [exact Hkeys | left; reflexivity]).
Defined.

Example retrieve_chunks_without_field :
  result_of (retrieve_chunks
               (reference_world (Some (py "ragie-secret"))
                                (inr (json_response 200 (py "OK")
                                                    (PDict [(py "detail", PStr (py "none"))])))
                                (inr [py "Paris."]))
               reference_pipeline capital_query default_scope []) =
    Raise (KeyError (py "scored_chunks")).
Proof. vm_compute. reflexivity. Qed.

(** C9 does not hold as first stated: the constructor accepts an empty
    generation key, and the pipeline it builds uploads and even requests a
    completion with it. *)
Lemma empty_generation_key_accepted :
  exists p,
    __init__ world_paris [] = inr p /\
    sambanova_api_key p = [] /\
    api_key (sambanova_client p) = [] /\
    existsb is_post
      (events_of (upload_document world_paris p guide_url None default_mode [])) = true /\
    existsb is_chat
      (events_of (process_query world_paris p capital_query default_scope [])) = true.
Proof.
  eexists. split; [reflexivity|]. repeat split; vm_compute; reflexivity.
Qed.


Example empty_name_sends_guide_pdf :
  events_of (upload_document world_paris reference_pipeline guide_url (Some [])
                             default_mode []) =
    [EPost (py "https://api.ragie.ai/documents/url")
           (PDict [(py "mode", PStr (py "fast")); (py "name", PStr (py "guide.pdf"));
                   (py "url", PStr guide_url)])
           (upload_headers reference_pipeline)
           (inr (json_response 200 (py "OK") paris_body))].
Proof. vm_compute. reflexivity. Qed.

Example empty_name_sends_document :
  events_of (upload_document world_paris reference_pipeline
                             (py "https://example.com/") (Some []) default_mode []) =
    [EPost (py "https://api.ragie.ai/documents/url")
           (PDict [(py "mode", PStr (py "fast")); (py "name", PStr (py "document"));
                   (py "url", PStr (py "https://example.com/"))])
           (upload_headers reference_pipeline)
           (inr (json_response 200 (py "OK") paris_body))].
Proof. vm_compute. reflexivity. Qed.

(** * Further properties of the script and of the pipeline *)

(** ** Uploading from the script *)

Section UploadRuns.

Variable w : world.

(** The upload request of the section, what it carries and what follows. *)
Lemma upload_section_post (u : ui) (p : RAGPipeline) (h : list event)
      (target : str) (body : pyval) (headers : list (str * str)) (reply : exn + Response) :
  In (EPost target body headers reply) (events_of (upload_section w u p h)) ->
  button u (py "Upload Document") = true /\
  text_input u (py "Enter document URL") <> [] /\
  target = RAGIE_UPLOAD_URL p /\
  headers = upload_headers p /\
  (exists name,
     body = upload_payload (selectbox u (py "Upload mode") [py "fast"; py "accurate"])
                           name (text_input u (py "Enter document URL")) /\
     (text_input u (py "Document name (optional)") <> [] ->
      name = text_input u (py "Document name (optional)")) /\
     (text_input u (py "Document name (optional)") = [] ->
      default_name w (text_input u (py "Enter document URL")) = inr name)) /\
  events_of (upload_section w u p h) =
    [ESpinner (py "Uploading document..."); EPost target body headers reply] ++
    after_upload reply.
Proof.
  rewrite upload_section_run. destruct (button u _); [|intros []].
  destruct (text_input u (py "Enter document URL")) as [|c rest] eqn:Eurl.
  { intros [H|[]]. discriminate. }
  cbv zeta. rewrite upload_document_run. cbn [events_of snd fst].
  destruct (text_input u (py "Document name (optional)")) as [|c' rest'] eqn:Ename;
    cbn [truthy].
  - destruct (default_name w (c :: rest)) as [e|name] eqn:Edef.
    + cbn. intros Hin. in_cases Hin.
    + cbv zeta. cbn [fst snd app].
      intros [H|[H|Hin]]; [discriminate| |].
      * injection H as <- <- <- <-.
        split; [reflexivity|]. split; [discriminate|].
        split; [reflexivity|]. split; [reflexivity|]. split.
        -- exists name. split; [reflexivity|]. split; [congruence|]. now intros _.
        -- unfold after_upload.
           destruct (requests_post w _ _ _ _) as [e|r]; [reflexivity|].
           destruct (ok r); [|reflexivity]. now destruct (json r).
      * exfalso. destruct (requests_post w _ _ _ _) as [e|r]; [in_cases Hin|].
        destruct (ok r); [|in_cases Hin]. destruct (json r); in_cases Hin.
  - cbv zeta. cbn [fst snd app].
    intros [H|[H|Hin]]; [discriminate| |].
    + injection H as <- <- <- <-.
      split; [reflexivity|]. split; [discriminate|].
      split; [reflexivity|]. split; [reflexivity|]. split.
      * exists (c' :: rest'). split; [reflexivity|]. split; [now intros _ | discriminate].
      * unfold after_upload.
        destruct (requests_post w _ _ _ _) as [e|r]; [reflexivity|].
        destruct (ok r); [|reflexivity]. now destruct (json r).
    + exfalso. destruct (requests_post w _ _ _ _) as [e|r]; [in_cases Hin|].
      destruct (ok r); [|in_cases Hin]. destruct (json r); in_cases Hin.
Qed.

(** A request of a run is made by one of the two sections, with the
    pipeline the run built. *)
Lemma main_network_event (u : ui) (h : list event) (e : event) :
  In e (events_of (main w u h)) -> is_network e = true ->
  exists key p opening welcome heading,
    session_get (h ++ opening) (py "sambanova_key") = Some key /\
    __init__ w key = inr p /\
    Forall quiet_event opening /\ Forall display_event welcome /\
    display_event heading /\
    events_of (main w u h) =
      opening ++ welcome ++
      events_of (upload_section w u p (h ++ opening ++ welcome)) ++ [heading] ++
      events_of (query_section w u p
                   (h ++ opening ++ welcome ++
                    events_of (upload_section w u p (h ++ opening ++ welcome)) ++
                    [heading])) /\
    (In e (events_of (upload_section w u p (h ++ opening ++ welcome))) /\
     upload_event p e \/
     In e (events_of (query_section w u p
                        (h ++ opening ++ welcome ++
                         events_of (upload_section w u p (h ++ opening ++ welcome)) ++
                         [heading]))) /\
     query_event p e).
Proof.
  intros Hin Hnet.
  destruct (main_run w u h) as [opening [Hquiet [_ Hrun]]].
  assert (Hsilent : forall l, Forall quiet_event l -> ~ In e l).
  { intros l Hl Hx. rewrite Forall_forall in Hl. apply Hl in Hx. now destruct e. }
  destruct (session_get (h ++ opening) (py "sambanova_key")) as [key|] eqn:Ekey.
  2:{ rewrite Hrun in Hin. now apply Hsilent in Hin. }
  destruct (__init__ w key) as [x|p] eqn:Einit.
  { rewrite Hrun in Hin. cbn [events_of snd] in Hin.
    apply in_app_or in Hin as [Hin|[Hin|[]]]; [now apply Hsilent in Hin|].
    subst e. discriminate. }
  destruct Hrun as [welcome [heading [uploaded [queried
                      [Hwel [Hhead [Hup [Hq Hrun]]]]]]]].
  exists key, p, opening, welcome, heading.
  subst uploaded queried.
  split; [exact Ekey|]. split; [exact Einit|]. split; [exact Hquiet|].
  split; [exact Hwel|]. split; [exact Hhead|].
  split; [now rewrite Hrun|].
  rewrite Hrun in Hin. cbn [events_of snd] in Hin.
  apply in_app_or in Hin as [Hin|Hin]; [now apply Hsilent in Hin|].
  apply in_app_or in Hin as [Hin|Hin].
  { exfalso. apply (Hsilent welcome); [|exact Hin].
    eapply Forall_impl; [|exact Hwel]. apply display_is_quiet. }
  apply in_app_or in Hin as [Hin|Hin].
  { left. split; [exact Hin|].
    pose proof (upload_section_events w u p (h ++ opening ++ welcome)) as Hall.
    rewrite Forall_forall in Hall. now apply Hall. }
  apply in_app_or in Hin as [[Hin|[]]|Hin].
  { exfalso. subst e. now destruct heading. }
  right. split; [exact Hin|].
  match type of Hin with
  | In _ (events_of (query_section w u p ?hh)) =>
      pose proof (query_section_events w u p hh) as Hall
  end.
  rewrite Forall_forall in Hall. now apply Hall.
Qed.

End UploadRuns.

Section UploadFromScript.

Variable w : world.

Lemma main_upload_post (u : ui) (h : list event)
      (body : pyval) (headers : list (str * str)) (reply : exn + Response) :
  In (EPost (py "https://api.ragie.ai/documents/url") body headers reply)
     (events_of (main w u h)) ->
  exists p before after,
    Forall quiet_event before /\
    Forall (query_event p) after /\
    RAGIE_UPLOAD_URL p = py "https://api.ragie.ai/documents/url" /\
    events_of (main w u h) =
      before ++ events_of (upload_section w u p (h ++ before)) ++ after /\
    In (EPost (py "https://api.ragie.ai/documents/url") body headers reply)
       (events_of (upload_section w u p (h ++ before))).
Proof.
  intros Hin.
  destruct (main_network_event w u h _ Hin eq_refl)
    as [key [p [opening [welcome [heading
          [_ [Hinit [Hquiet [Hwel [Hhead [Hrun Hwhere]]]]]]]]]]].
  apply init_builds in Hinit as [_ [_ [_ [_ [Hupload Hretrieval]]]]].
  exists p, (opening ++ welcome),
    ([heading] ++
     events_of (query_section w u p
                  (h ++ opening ++ welcome ++
                   events_of (upload_section w u p (h ++ opening ++ welcome)) ++
                   [heading]))).
  split; [|split; [|split; [exact Hupload|split]]].
  - apply Forall_app. split; [exact Hquiet|].
    eapply Forall_impl; [|exact Hwel]. apply display_is_quiet.
  - constructor; [now destruct heading | apply query_section_events].
  - rewrite Hrun. now rewrite <- !app_assoc.
  - destruct Hwhere as [[Hin' _]|[_ Hq]]; [exact Hin'|].
    cbn in Hq. rewrite Hretrieval in Hq. discriminate.
Qed.

(** X1: the script uploads only when the button is pressed on a non-empty
    URL, and sends the URL and the mode as entered, with the name as
    entered when there is one. *)
Theorem main_uploads_what_was_entered (u : ui) (h : list event)
        (body : pyval) (headers : list (str * str)) (reply : exn + Response) :
  In (EPost (py "https://api.ragie.ai/documents/url") body headers reply)
     (events_of (main w u h)) ->
  button u (py "Upload Document") = true /\
  text_input u (py "Enter document URL") <> [] /\
  subscript body (py "url") = inr (PStr (text_input u (py "Enter document URL"))) /\
  subscript body (py "mode") =
    inr (PStr (selectbox u (py "Upload mode") [py "fast"; py "accurate"])) /\
  (text_input u (py "Document name (optional)") <> [] ->
   subscript body (py "name") = inr (PStr (text_input u (py "Document name (optional)")))).
Proof.
  intros Hin.
  destruct (main_upload_post _ _ _ _ _ Hin) as [p [before [after [_ [_ [_ [_ Hup]]]]]]].
  apply upload_section_post in Hup
    as [Hpressed [Hurl [_ [_ [[name [-> [Hgiven _]]] _]]]]].
  split; [exact Hpressed|]. split; [exact Hurl|].
  split; [reflexivity|]. split; [reflexivity|].
  intros Hname. rewrite <- (Hgiven Hname). reflexivity.
Qed.

Lemma count_quiet_sleeps (l : list event) :
  Forall quiet_event l -> filter is_sleep l = [].
Proof. intros H. eapply filter_none; [exact H | now intros []]. Qed.

Lemma count_query_sleeps (p : RAGPipeline) (l : list event) :
  Forall (query_event p) l -> filter is_sleep l = [].
Proof. intros H. eapply filter_none; [exact H | now intros []]. Qed.

(** X2: when the upload endpoint accepts the document and its body decodes,
    the script pauses five seconds right after the request and then shows
    the success; it pauses once in the run. *)
Theorem main_pauses_after_upload (u : ui) (h : list event)
        (body : pyval) (headers : list (str * str)) (resp : Response) (v : pyval) :
  In (EPost (py "https://api.ragie.ai/documents/url") body headers (inr resp))
     (events_of (main w u h)) ->
  ok resp = true -> json resp = inr v ->
  (exists before after,
     events_of (main w u h) =
       before ++
       [EPost (py "https://api.ragie.ai/documents/url") body headers (inr resp);
        ESleep 5;
        ESuccess (py "Document uploaded and indexed successfully!")] ++ after) /\
  filter is_sleep (events_of (main w u h)) = [ESleep 5].
Proof.
  intros Hin Hok Hjson.
  destruct (main_upload_post _ _ _ _ _ Hin)
    as [p [before [after [Hb [Ha [_ [Hrun Hup]]]]]]].
  apply upload_section_post in Hup as [_ [_ [_ [_ [_ Hshape]]]]].
  unfold after_upload in Hshape. rewrite Hok, Hjson in Hshape.
  rewrite Hrun, Hshape. split.
  - exists (before ++ [ESpinner (py "Uploading document...")]), after.
    now rewrite <- !app_assoc.
  - rewrite !filter_app, (count_quiet_sleeps Hb), (count_query_sleeps Ha).
    reflexivity.
Qed.

(** X3: when the request itself raises, or the endpoint answers with a
    success status and a body that does not decode, the script shows that
    exception as an upload error and does not pause. *)
Theorem main_reports_upload_exception (u : ui) (h : list event)
        (body : pyval) (headers : list (str * str)) (reply : exn + Response) (e : exn) :
  In (EPost (py "https://api.ragie.ai/documents/url") body headers reply)
     (events_of (main w u h)) ->
  reply = inl e \/ (exists r, reply = inr r /\ ok r = true /\ json r = inl e) ->
  In (EError (py "Error uploading document: ") (Some e)) (events_of (main w u h)) /\
  filter is_sleep (events_of (main w u h)) = [].
Proof.
  intros Hin Hwhy.
  destruct (main_upload_post _ _ _ _ _ Hin)
    as [p [before [after [Hb [Ha [_ [Hrun Hup]]]]]]].
  apply upload_section_post in Hup as [_ [_ [_ [_ [_ Hshape]]]]].
  assert (Hafter : after_upload reply =
                   [EError (py "Error uploading document: ") (Some e)]).
  { destruct Hwhy as [-> | [r [-> [Hok Hjson]]]]; [reflexivity|].
    unfold after_upload. now rewrite Hok, Hjson. }
  rewrite Hafter in Hshape. rewrite Hrun, Hshape. split.
  - apply in_or_app. right. apply in_or_app. left. right. right. now left.
  - rewrite !filter_app, (count_quiet_sleeps Hb), (count_query_sleeps Ha).
    reflexivity.
Qed.

(** X4: without a name, a URL that [urlparse] rejects stops the upload
    before anything is sent: [upload_document] raises the parser's exception
    with no event, and no run of the script sends an upload for it. *)
Theorem upload_stops_on_rejected_url (u : ui) (h : list event) (e : exn) :
  (forall p url name mode h',
     truthy name = false -> urlparse_path w url = inl e ->
     upload_document w p url name mode h' = (Raise e, [])) /\
  (text_input u (py "Document name (optional)") = [] ->
   urlparse_path w (text_input u (py "Enter document URL")) = inl e ->
   filter (is_post_to (py "https://api.ragie.ai/documents/url"))
          (events_of (main w u h)) = []).
Proof.
  split.
  - intros p url name mode h' Hname Hurl.
    rewrite upload_document_run, Hname. unfold default_name. now rewrite Hurl.
  - intros Hname Hurl.
    destruct (filter _ (events_of (main w u h))) as [|x rest] eqn:E; [reflexivity|].
    exfalso.
    assert (Hx : In x (filter (is_post_to (py "https://api.ragie.ai/documents/url"))
                              (events_of (main w u h)))) by (rewrite E; now left).
    apply filter_In in Hx as [Hin Hto].
    destruct x; try discriminate.
    cbn in Hto. apply str_eqb_eq in Hto. subst url.
    destruct (main_upload_post _ _ _ _ _ Hin) as [p [before [after [_ [_ [_ [_ Hup]]]]]]].
    apply upload_section_post in Hup as [_ [_ [_ [_ [[name [_ [_ Hdef]]] _]]]]].
    specialize (Hdef Hname). unfold default_name in Hdef.
    rewrite Hurl in Hdef. discriminate.
Qed.

End UploadFromScript.

(** ** Retrieval and generation, case by case *)

Section RetrievalCases.

Variable w : world.

Lemma process_query_reply (p : RAGPipeline) (query scope : str) (h : list event)
      (url : str) (body : pyval) (headers : list (str * str)) (reply : exn + Response) :
  In (EPost url body headers reply) (events_of (process_query w p query scope h)) ->
  reply = requests_post w h (RAGIE_RETRIEVAL_URL p)
            (retrieval_payload query scope) (retrieval_headers p).
Proof.
  intros Hin.
  apply retrieve_chunks_reply with (url := url) (body := body) (headers := headers).
  revert Hin. rewrite process_query_run.
  destruct (retrieve_chunks w p query scope h) as [[[|c cs]|e] d];
    cbn [events_of snd]; try tauto.
  rewrite generate_response_run. cbn [snd].
  intros Hin. apply in_app_or in Hin as [Hin|[Hin|[]]]; [assumption|discriminate].
Qed.

(** X5: the time report goes to the page and to the console with the same
    text, as soon as the reply is a success and its body decodes, whatever
    the body holds; on every other reply nothing is reported and the call
    raises. *)
Theorem retrieve_chunks_reports_latency (p : RAGPipeline) (query scope : str)
        (h : list event) :
  let reply := requests_post w h (RAGIE_RETRIEVAL_URL p)
                 (retrieval_payload query scope) (retrieval_headers p) in
  let sent := EPost (RAGIE_RETRIEVAL_URL p) (retrieval_payload query scope)
                (retrieval_headers p) reply in
  let report := py "Time taken to retrieve document information: " ++
                elapsed_2f w h (h ++ [sent]) ++ py " seconds" in
  (forall r data, reply = inr r -> ok r = true -> json r = inr data ->
     events_of (retrieve_chunks w p query scope h) = [sent; EInfo report; EPrint report]) /\
  (forall e, reply = inl e ->
     retrieve_chunks w p query scope h = (Raise e, [sent])) /\
  (forall r e, reply = inr r -> ok r = true -> json r = inl e ->
     retrieve_chunks w p query scope h = (Raise e, [sent])) /\
  (forall r, reply = inr r -> ok r = false ->
     events_of (retrieve_chunks w p query scope h) = [sent]).
Proof.
  intros reply sent report. rewrite retrieve_chunks_run. cbv zeta.
  fold reply. fold sent. fold report.
  repeat split.
  - intros r data -> Hok Hjson. now rewrite Hok, Hjson.
  - now intros e ->.
  - intros r e -> Hok Hjson. now rewrite Hok, Hjson.
  - intros r -> Hok. now rewrite Hok.
Qed.

Lemma texts_of_stops (good : list pyval) (texts : list pyval) (bad : pyval)
      (rest : list pyval) (e : exn) :
  Forall2 (fun item text => member item (py "text") text) good texts ->
  subscript bad (py "text") = inl e ->
  texts_of (good ++ bad :: rest) = inl e.
Proof.
  intros Hgood Hbad. induction Hgood as [|item text good texts Hm _ IH].
  - cbn [app texts_of]. now rewrite Hbad.
  - cbn [app texts_of]. rewrite (subscript_member Hm). cbn [and_then].
    now rewrite IH.
Qed.

(** X6: one scored chunk whose [text] cannot be read loses the whole
    result: retrieval raises what reading that chunk raises, even when the
    chunks before it are well formed; it is a [KeyError] naming [text] when
    the chunk is an object without the member. *)
Theorem retrieve_chunks_incomplete_chunk (p : RAGPipeline) (query scope : str)
        (h : list event) (url : str) (body : pyval) (headers : list (str * str))
        (resp : Response) (data : pyval) (good texts : list pyval) (bad : pyval)
        (rest : list pyval) :
  In (EPost url body headers (inr resp))
     (events_of (retrieve_chunks w p query scope h)) ->
  ok resp = true ->
  json resp = inr data ->
  member data (py "scored_chunks") (PList (good ++ bad :: rest)) ->
  Forall2 (fun item text => member item (py "text") text) good texts ->
  (forall e, subscript bad (py "text") = inl e ->
     result_of (retrieve_chunks w p query scope h) = Raise e) /\
  (no_member bad (py "text") ->
     result_of (retrieve_chunks w p query scope h) = Raise (KeyError (py "text"))).
Proof.
  intros Hin Hok Hjson Hm Hgood. apply retrieve_chunks_reply in Hin.
  assert (Hgen : forall e, subscript bad (py "text") = inl e ->
                   result_of (retrieve_chunks w p query scope h) = Raise e).
  { intros e Hbad. rewrite retrieve_chunks_run. cbv zeta.
    rewrite <- Hin, Hok, Hjson. cbn [result_of fst]. unfold scored_chunk_texts.
    rewrite (subscript_member Hm). cbn [and_then iterate].
    now rewrite (@texts_of_stops good texts bad rest e Hgood Hbad). }
  split; [exact Hgen|].
  intros Hno. apply Hgen. now apply subscript_no_member.
Qed.

(** X7: a body that is not an object, or whose [scored_chunks] is [null], a
    boolean or a number, makes retrieval raise a [TypeError]. *)
Theorem retrieve_chunks_wrong_shape (p : RAGPipeline) (query scope : str)
        (h : list event) (url : str) (body : pyval) (headers : list (str * str))
        (resp : Response) (data : pyval) :
  In (EPost url body headers (inr resp))
     (events_of (retrieve_chunks w p query scope h)) ->
  ok resp = true ->
  json resp = inr data ->
  ((forall entries, data <> PDict entries) ->
   result_of (retrieve_chunks w p query scope h) = Raise TypeError) /\
  (forall v, member data (py "scored_chunks") v ->
     (v = PNone \/ (exists b, v = PBool b) \/ (exists n, v = PInt n) \/
      (exists t, v = PFloat t)) ->
     result_of (retrieve_chunks w p query scope h) = Raise TypeError).
Proof.
  intros Hin Hok Hjson. apply retrieve_chunks_reply in Hin.
  rewrite retrieve_chunks_run. cbv zeta. rewrite <- Hin, Hok, Hjson.
  cbn [result_of fst]. unfold scored_chunk_texts. split.
  - intros Hnot. destruct data; try reflexivity. now destruct (Hnot entries).
  - intros v Hm Hkind. rewrite (subscript_member Hm). cbn [and_then].
    destruct Hkind as [-> | [[b ->] | [[n ->] | [t ->]]]]; reflexivity.
Qed.

(** X8: [scored_chunks] counts as empty when it is an empty list, and also
    when it is an empty object or an empty text: the query then answers the
    fixed sentence after the request and the time report, and asks for no
    completion. *)
Theorem process_query_empty_collection (p : RAGPipeline) (query scope : str)
        (h : list event) (url : str) (body : pyval) (headers : list (str * str))
        (resp : Response) (data v : pyval) :
  In (EPost url body headers (inr resp))
     (events_of (process_query w p query scope h)) ->
  ok resp = true ->
  json resp = inr data ->
  member data (py "scored_chunks") v ->
  v = PList [] \/ v = PDict [] \/ v = PStr [] ->
  result_of (process_query w p query scope h) = Return no_information /\
  existsb is_chat (events_of (process_query w p query scope h)) = false /\
  List.length (events_of (process_query w p query scope h)) = 3.
Proof.
  intros Hin Hok Hjson Hm Hempty. apply process_query_reply in Hin.
  rewrite process_query_run, retrieve_chunks_run. cbv zeta.
  rewrite <- Hin, Hok, Hjson. unfold scored_chunk_texts.
  rewrite (subscript_member Hm). cbn [and_then].
  destruct Hempty as [-> | [-> | ->]]; repeat split.
Qed.

(** X9: a query sends one request to the retrieval endpoint, first; it asks
    for at most one completion, last, and exactly when retrieval gave at
    least one chunk. *)
Theorem process_query_requests (p : RAGPipeline) (query scope : str) (h : list event) :
  (exists sent rest,
     events_of (process_query w p query scope h) = sent :: rest /\
     is_post sent = true /\ filter is_post rest = []) /\
  match retrieve_chunks w p query scope h with
  | (Return (_ :: _), d) =>
      exists chat, is_chat chat = true /\ filter is_chat d = [] /\
                   events_of (process_query w p query scope h) = d ++ [chat]
  | (_, d) =>
      events_of (process_query w p query scope h) = d /\ filter is_chat d = []
  end.
Proof.
  assert (Hquiet : forall (o : outcome str) (d : list event),
            (exists sent rest, d = sent :: rest /\ is_post sent = true /\
                               filter is_post rest = []) ->
            filter is_chat d = [] ->
            (exists sent rest, events_of (o, d) = sent :: rest /\ is_post sent = true /\
                               filter is_post rest = []) /\
            events_of (o, d) = d /\ filter is_chat d = []).
  { intros o d Hd Hc. repeat split; assumption. }
  rewrite process_query_run, retrieve_chunks_run. cbv zeta.
  destruct (requests_post w h _ _ _) as [e|r].
  { apply Hquiet; [do 2 eexists; split; [reflexivity|split; reflexivity] | reflexivity]. }
  destruct (ok r).
  2:{ apply Hquiet; [do 2 eexists; split; [reflexivity|split; reflexivity] | reflexivity]. }
  destruct (json r) as [e|data].
  { apply Hquiet; [do 2 eexists; split; [reflexivity|split; reflexivity] | reflexivity]. }
  destruct (scored_chunk_texts data) as [e|[|c cs]].
  - apply Hquiet; [do 2 eexists; split; [reflexivity|split; reflexivity] | reflexivity].
  - apply Hquiet; [do 2 eexists; split; [reflexivity|split; reflexivity] | reflexivity].
  - rewrite generate_response_run. cbv zeta. cbn [events_of fst snd app].
    split.
    + do 2 eexists. split; [reflexivity|split; reflexivity].
    + eexists. split; [|split; [|reflexivity]]; reflexivity.
Qed.

(** X10: when the completion call raises, or comes back with no choice, the
    query raises that exception, respectively an [IndexError], after this
    single completion request. *)
Theorem process_query_generation_failure (p : RAGPipeline) (query scope : str)
        (h d : list event) (chunks : list pyval) :
  retrieve_chunks w p query scope h = (Return chunks, d) ->
  chunks <> [] ->
  let request :=
    {| model := py "Llama-3.2-11B-Vision-Instruct";
       messages := [ {| role := py "system"; content := create_system_prompt w chunks |};
                     {| role := py "user"; content := query |} ];
       temperature := PFloat (py "0.1");
       top_p := PFloat (py "0.1") |} in
  let reply := chat_completions_create w (h ++ d) (sambanova_client p) request in
  (forall e, reply = inl e ->
     process_query w p query scope h =
       (Raise e, d ++ [EChat (sambanova_client p) request (inl e)])) /\
  (reply = inr [] ->
     process_query w p query scope h =
       (Raise IndexError, d ++ [EChat (sambanova_client p) request (inr [])])).
Proof.
  intros Hret Hne request reply.
  rewrite process_query_run, Hret.
  destruct chunks as [|c cs]; [contradiction|].
  rewrite generate_response_run. cbv zeta. fold request. fold reply.
  split.
  - intros e He. now rewrite He.
  - intros He. now rewrite He.
Qed.

End RetrievalCases.

(** ** Asking from the script *)

Section QueryFromScript.

Variable w : world.

Lemma process_query_post (p : RAGPipeline) (query scope : str) (h : list event)
      (target : str) (body : pyval) (headers : list (str * str)) (reply : exn + Response) :
  In (EPost target body headers reply) (events_of (process_query w p query scope h)) ->
  target = RAGIE_RETRIEVAL_URL p /\
  body = retrieval_payload query scope /\
  headers = retrieval_headers p.
Proof.
  rewrite process_query_run, retrieve_chunks_run. cbv zeta.
  destruct (requests_post w h _ _ _) as [e|r].
  { intros [H|[]]. now injection H as <- <- <- _. }
  destruct (ok r).
  2:{ intros [H|[]]. now injection H as <- <- <- _. }
  destruct (json r) as [e|data].
  { intros [H|[]]. now injection H as <- <- <- _. }
  destruct (scored_chunk_texts data) as [e|[|c cs]]; cbn [events_of snd].
  - intros Hin. in_cases Hin. all: now injection Hin as <- <- <- _.
  - intros Hin. in_cases Hin. all: now injection Hin as <- <- <- _.
  - rewrite generate_response_run. cbn [snd app].
    intros Hin. in_cases Hin. all: now injection Hin as <- <- <- _.
Qed.

(** The completion request of a query: it is the last event, its prompt is
    built from the chunks just retrieved, and its reply decides the result. *)
Lemma process_query_chat (p : RAGPipeline) (query scope : str) (h : list event)
      (client : OpenAI) (request : chat_request) (reply : exn + list str) :
  In (EChat client request reply) (events_of (process_query w p query scope h)) ->
  client = sambanova_client p /\
  (exists chunks d,
     retrieve_chunks w p query scope h = (Return chunks, d) /\ chunks <> [] /\
     request =
       {| model := py "Llama-3.2-11B-Vision-Instruct";
          messages := [ {| role := py "system"; content := create_system_prompt w chunks |};
                        {| role := py "user"; content := query |} ];
          temperature := PFloat (py "0.1");
          top_p := PFloat (py "0.1") |} /\
     events_of (process_query w p query scope h) = d ++ [EChat client request reply]) /\
  result_of (process_query w p query scope h) =
    match reply with
    | inl e => Raise e
    | inr (first :: _) => Return first
    | inr [] => Raise IndexError
    end.
Proof.
  pose proof (retrieve_chunks_never_chats w p query scope h) as Hquiet.
  rewrite process_query_run.
  destruct (retrieve_chunks w p query scope h) as [[[|c cs]|e] d];
    cbn [events_of result_of fst snd] in *.
  - intros Hin. exfalso.
    assert (H : existsb is_chat d = true) by (apply existsb_exists; eauto).
    congruence.
  - rewrite generate_response_run. cbv zeta. cbn [fst snd].
    intros Hin. apply in_app_or in Hin as [Hin|[Hin|[]]].
    + exfalso.
      assert (H : existsb is_chat d = true) by (apply existsb_exists; eauto).
      congruence.
    + injection Hin as <- <- <-. split; [reflexivity|]. split.
      * exists (c :: cs), d. repeat split. discriminate.
      * reflexivity.
  - intros Hin. exfalso.
    assert (H : existsb is_chat d = true) by (apply existsb_exists; eauto).
    congruence.
Qed.

(** The requests of the query section belong to one query, made because
    the button was pressed on a non-empty question. *)
Lemma query_section_network (u : ui) (p : RAGPipeline) (h : list event) (e : event) :
  In e (events_of (query_section w u p h)) -> is_network e = true ->
  button u (py "Generate Response") = true /\
  text_input u (py "Enter your query") <> [] /\
  let answer := process_query w p (text_input u (py "Enter your query")) default_scope
                  (h ++ [ESpinner (py "Generating response...")]) in
  In e (events_of answer) /\
  events_of (query_section w u p h) =
    [ESpinner (py "Generating response...")] ++ events_of answer ++
    after_query (result_of answer).
Proof.
  rewrite query_section_run. destruct (button u _); [|intros []].
  destruct (text_input u (py "Enter your query")) as [|c rest].
  { intros [H|[]] Hnet. subst e. discriminate. }
  cbv zeta. cbn [events_of result_of snd fst].
  intros Hin Hnet. split; [reflexivity|]. split; [discriminate|]. split.
  - destruct Hin as [H|Hin]; [subst e; discriminate|].
    apply in_app_or in Hin as [Hin|Hin]; [exact Hin|].
    exfalso. destruct (fst (process_query w p _ _ _)); in_cases Hin;
      subst e; discriminate.
  - reflexivity.
Qed.

(** X11: a run whose upload is not asked for (button not pressed, or no
    URL) and whose query is not asked for (button not pressed, or no
    question) contacts no service. *)
Theorem main_idle (u : ui) (h : list event) :
  button u (py "Upload Document") = false \/ text_input u (py "Enter document URL") = [] ->
  button u (py "Generate Response") = false \/ text_input u (py "Enter your query") = [] ->
  existsb is_network (events_of (main w u h)) = false.
Proof.
  intros Hup Hq.
  destruct (existsb is_network (events_of (main w u h))) eqn:E; [|reflexivity].
  exfalso. apply existsb_exists in E as [e [Hin Hnet]].
  destruct (main_network_event w u h e Hin Hnet)
    as [key [p [opening [welcome [heading [_ [_ [_ [_ [_ [_ Hwhere]]]]]]]]]]].
  destruct Hwhere as [[Hin' Hev]|[Hin' _]].
  - destruct e; try discriminate; [|contradiction].
    apply upload_section_post in Hin' as [Hb [Hu _]].
    destruct Hup; congruence.
  - apply query_section_network in Hin' as [Hb [Hu _]]; [|exact Hnet].
    destruct Hq; congruence.
Qed.

(** X12: what the script asks the retrieval service: the question as
    entered, in the scope [tutorial]. *)
Theorem main_queries_what_was_entered (u : ui) (h : list event)
        (body : pyval) (headers : list (str * str)) (reply : exn + Response) :
  In (EPost (py "https://api.ragie.ai/retrievals") body headers reply)
     (events_of (main w u h)) ->
  button u (py "Generate Response") = true /\
  text_input u (py "Enter your query") <> [] /\
  body = PDict [(py "query", PStr (text_input u (py "Enter your query")));
                (py "filters", PDict [(py "scope", PStr (py "tutorial"))])].
Proof.
  intros Hin.
  destruct (main_network_event w u h _ Hin eq_refl)
    as [key [p [opening [welcome [heading [_ [Hinit [_ [_ [_ [_ Hwhere]]]]]]]]]]].
  apply init_builds in Hinit as [_ [_ [_ [_ [Hupload _]]]]].
  destruct Hwhere as [[_ Hev]|[Hin' _]].
  - cbn in Hev. rewrite Hupload in Hev. discriminate.
  - apply query_section_network in Hin' as [Hb [Hu [Hin' _]]]; [|reflexivity].
    apply process_query_post in Hin' as [_ [-> _]].
    now repeat split.
Qed.

(** X13: a completion that comes back with a first choice is shown as it
    is, under the response heading, and nothing follows in the run. *)
Theorem main_shows_answer (u : ui) (h : list event) (client : OpenAI)
        (request : chat_request) (first : str) (rest : list str) :
  In (EChat client request (inr (first :: rest))) (events_of (main w u h)) ->
  exists before,
    events_of (main w u h) =
      before ++ [EChat client request (inr (first :: rest));
                 EMarkdown (py "### Response:") false;
                 EMarkdown first false].
Proof.
  intros Hin.
  destruct (main_network_event w u h _ Hin eq_refl)
    as [key [p [opening [welcome [heading [_ [_ [_ [_ [_ [Hrun Hwhere]]]]]]]]]]].
  destruct Hwhere as [[_ Hev]|[Hin' _]]; [contradiction|].
  apply query_section_network in Hin' as [_ [_ [Hin' Hshape]]]; [|reflexivity].
  apply process_query_chat in Hin' as [_ [[chunks [d [_ [_ [_ Hevents]]]]] Hres]].
  rewrite Hres, Hevents in Hshape. rewrite Hrun, Hshape.
  cbn [after_query].
  match goal with
  | |- exists before, ?a ++ ?b ++ ?c ++ ?hd ++ ?sp ++ (?dd ++ _) ++ _ = _ =>
      exists (a ++ b ++ c ++ hd ++ sp ++ dd)
  end.
  repeat rewrite <- app_assoc. reflexivity.
Qed.

End QueryFromScript.

(** ** The session and its keys *)

Lemma session_get_app (a b : list event) (key : str) :
  session_get (a ++ b) key =
  match session_get b key with
  | Some v => Some v
  | None => session_get a key
  end.
Proof.
  induction a as [|e a IH]; cbn [app session_get].
  - now destruct (session_get b key).
  - rewrite IH. now destruct (session_get b key).
Qed.

Lemma session_get_none (l : list event) (key : str) :
  (forall k v, ~ In (ESessionSet k v) l) -> session_get l key = None.
Proof.
  intros Hno. destruct (session_get l key) as [v|] eqn:E; [|reflexivity].
  apply session_get_in in E. now apply Hno in E.
Qed.

Section SessionFacts.

Variable w : world.

Lemma session_after_opening (u : ui) (h : list event) :
  session_get (h ++ opening_of u) (py "sambanova_key") = current_key u h.
Proof.
  rewrite session_get_app. unfold opening_of, current_key.
  destruct (button u _); [|reflexivity].
  now destruct (text_input u _).
Qed.

(** One run, event by event. *)
Lemma main_unfolds (u : ui) (h : list event) :
  main w u h =
  match current_key u h with
  | None => (Return tt, opening_of u)
  | Some key =>
      match __init__ w key with
      | inl e => (Return tt, opening_of u ++ [EError [] (Some e)])
      | inr p =>
          let uploaded := events_of (upload_section w u p
                                       (h ++ opening_of u ++ welcome_events)) in
          let queried := events_of (query_section w u p
                                      (h ++ opening_of u ++ welcome_events ++
                                       uploaded ++ [query_heading])) in
          (Return tt,
           opening_of u ++ welcome_events ++ uploaded ++ [query_heading] ++ queried)
      end
  end.
Proof.
  rewrite <- session_after_opening.
  unfold main. rewrite !bind_emit.
  match goal with
  | |- context [bind (if button u ?l then ?a else ?b) ?k ?hh] =>
      assert (Hsub : (if button u l then a else b) hh =
                     (Return tt, skipn 2 (opening_of u)))
  end.
  { unfold opening_of. cbn [skipn]. destruct (button u _); [|reflexivity].
    destruct (text_input u _); reflexivity. }
  rewrite bind_returns with (a := tt) (d := skipn 2 (opening_of u)) by exact Hsub.
  rewrite bind_history.
  rewrite <- !app_assoc. cbn [app fst snd].
  change (EPageConfig (py "RAG Over Online Documents with SambaNova") (py "wide")
          :: EMarkdown title_html true :: skipn 2 (opening_of u))
    with (opening_of u).
  destruct (session_get (h ++ opening_of u) (py "sambanova_key")) as [key|];
    [|now rewrite app_nil_r].
  destruct (__init__ w key) as [e|p]; [reflexivity|].
  cbv zeta. rewrite !bind_emit. cbn [fst snd].
  rewrite <- !app_assoc. cbn [app].
  pose proof (upload_section_returns w u p (h ++ opening_of u ++ welcome_events)) as Hup.
  unfold result_of in Hup.
  destruct (upload_section w u p (h ++ opening_of u ++ welcome_events))
    as [o uploaded] eqn:Eup.
  cbn [fst] in Hup. subst o.
  rewrite bind_returns with (a := tt) (d := uploaded) by exact Eup.
  rewrite bind_emit. cbn [fst snd events_of].
  rewrite <- !app_assoc. cbn [app].
  pose proof (query_section_returns w u p
                (h ++ opening_of u ++ welcome_events ++ uploaded ++ [query_heading]))
    as Hq.
  unfold result_of in Hq. cbn [app] in Hq.
  f_equal; solve [exact Hq | reflexivity].
Qed.

Lemma sections_keep_session (u : ui) (p : RAGPipeline) (h1 h2 : list event) :
  forall k v,
    ~ In (ESessionSet k v)
         (welcome_events ++ events_of (upload_section w u p h1) ++ [query_heading] ++
          events_of (query_section w u p h2)).
Proof.
  intros k v Hin.
  apply in_app_or in Hin as [Hin|Hin]; [in_cases Hin|].
  apply in_app_or in Hin as [Hin|Hin].
  { pose proof (upload_section_events w u p h1) as Hall.
    rewrite Forall_forall in Hall. now apply Hall in Hin. }
  apply in_app_or in Hin as [Hin|Hin]; [in_cases Hin|].
  pose proof (query_section_events w u p h2) as Hall.
  rewrite Forall_forall in Hall. now apply Hall in Hin.
Qed.

(** X14: after a run the session holds the key entered in that run when
    the submit button was pressed on a non-empty key, and otherwise the key
    it held before: an empty submission changes nothing. *)
Theorem main_keeps_latest_key (u : ui) (h : list event) :
  session_get (h ++ events_of (main w u h)) (py "sambanova_key") = current_key u h.
Proof.
  rewrite main_unfolds.
  destruct (current_key u h) as [key|] eqn:Ekey.
  - destruct (__init__ w key) as [e|p]; cbv zeta; cbn [events_of snd].
    + rewrite app_assoc, session_get_app. cbn [session_get].
      rewrite session_after_opening. exact Ekey.
    + rewrite app_assoc, session_get_app.
      rewrite session_get_none by apply sections_keep_session.
      rewrite session_after_opening. exact Ekey.
  - cbn [events_of snd]. rewrite session_after_opening. exact Ekey.
Qed.

(** X15: a completion is requested with the key the session holds in that
    very run (the one just submitted, if any), against the fixed base URL,
    and its user message is the question as entered. *)
Theorem main_completes_with_current_key (u : ui) (h : list event) (client : OpenAI)
        (request : chat_request) (reply : exn + list str) :
  In (EChat client request reply) (events_of (main w u h)) ->
  current_key u h = Some (api_key client) /\
  base_url client = py "https://api.sambanova.ai/v1" /\
  exists prompt,
    messages request =
      [ {| role := py "system"; content := prompt |};
        {| role := py "user"; content := text_input u (py "Enter your query") |} ].
Proof.
  rewrite main_unfolds.
  destruct (current_key u h) as [key|]; [|intros Hin; unfold opening_of in Hin].
  2:{ cbn in Hin. destruct Hin as [H|[H|Hin]]; try discriminate.
      destruct (button u _); [|contradiction].
      destruct (text_input u _); in_cases Hin. }
  destruct (__init__ w key) as [e|p] eqn:Einit; cbv zeta; cbn [events_of snd].
  { intros Hin. exfalso. apply in_app_or in Hin as [Hin|Hin]; [|in_cases Hin].
    unfold opening_of in Hin. destruct Hin as [H|[H|Hin]]; try discriminate.
    destruct (button u _); [|contradiction].
    destruct (text_input u _); in_cases Hin. }
  intros Hin.
  assert (Hq : In (EChat client request reply)
                  (events_of (query_section w u p
                     (h ++ opening_of u ++ welcome_events ++
                      events_of (upload_section w u p
                                   (h ++ opening_of u ++ welcome_events)) ++
                      [query_heading])))).
  { apply in_app_or in Hin as [Hin|Hin].
    { exfalso. unfold opening_of in Hin.
      destruct Hin as [H|[H|Hin]]; try discriminate.
      destruct (button u _); [|contradiction].
      destruct (text_input u _); in_cases Hin. }
    apply in_app_or in Hin as [Hin|Hin]; [in_cases Hin|].
    apply in_app_or in Hin as [Hin|Hin].
    { exfalso.
      pose proof (upload_section_events w u p (h ++ opening_of u ++ welcome_events))
        as Hall.
      rewrite Forall_forall in Hall. now apply Hall in Hin. }
    apply in_app_or in Hin as [Hin|Hin]; [in_cases Hin | exact Hin]. }
  apply query_section_network in Hq as [_ [_ [Hq _]]]; [|reflexivity].
  apply process_query_chat in Hq as [-> [[chunks [d [_ [_ [-> _]]]]] _]].
  assert (Hbase : base_url (sambanova_client p) = py "https://api.sambanova.ai/v1").
  { unfold __init__ in Einit. destruct (truthy (RAGIE_API_KEY w)); [|discriminate].
    cbn [negb] in Einit. now injection Einit as <-. }
  apply init_builds in Einit as [_ [_ [_ [Hkey _]]]].
  split; [now rewrite Hkey|]. split; [exact Hbase|].
  eexists. reflexivity.
Qed.

End SessionFacts.

Section SessionRequests.

Variable w : world.

Lemma main_post_is_authorized (u : ui) (h : list event)
      (target : str) (body : pyval) (headers : list (str * str)) (reply : exn + Response) :
  In (EPost target body headers reply) (events_of (main w u h)) ->
  exists key,
    RAGIE_API_KEY w = Some key /\ key <> [] /\
    (target = py "https://api.ragie.ai/documents/url" /\
     headers = [(py "accept", py "application/json");
                (py "content-type", py "application/json");
                (py "authorization", py "Bearer " ++ key)]
     \/
     target = py "https://api.ragie.ai/retrievals" /\
     headers = [(py "Content-Type", py "application/json");
                (py "Authorization", py "Bearer " ++ key)]).
Proof.
  intros Hin.
  destruct (main_network_event w u h _ Hin eq_refl)
    as [sk [p [opening [welcome [heading [_ [Hinit [_ [_ [_ [_ Hwhere]]]]]]]]]]].
  apply init_builds in Hinit as [Htruthy [Hsame [_ [_ [Hupload Hretrieval]]]]].
  destruct (RAGIE_API_KEY w) as [[|c key]|] eqn:Ekey; try discriminate.
  exists (c :: key). split; [reflexivity|]. split; [discriminate|].
  destruct Hwhere as [[Hin' _]|[Hin' _]].
  - left. apply upload_section_post in Hin' as [_ [_ [-> [-> _]]]].
    split; [exact Hupload|]. unfold upload_headers. now rewrite Hsame.
  - right. apply query_section_network in Hin' as [_ [_ [Hin' _]]]; [|reflexivity].
    apply process_query_post in Hin' as [-> [_ ->]].
    split; [exact Hretrieval|]. unfold retrieval_headers. now rewrite Hsame.
Qed.

(** X16: in a session, every POST goes to one of the two Ragie endpoints
    and carries the retrieval key of the environment as a bearer token; the
    key is never empty. *)
Theorem session_posts_are_authorized (runs : list ui) (h : list event)
        (target : str) (body : pyval) (headers : list (str * str)) (reply : exn + Response) :
  In (EPost target body headers reply) (events_of (run_session w runs h)) ->
  exists key,
    RAGIE_API_KEY w = Some key /\ key <> [] /\
    (target = py "https://api.ragie.ai/documents/url" /\
     headers = [(py "accept", py "application/json");
                (py "content-type", py "application/json");
                (py "authorization", py "Bearer " ++ key)]
     \/
     target = py "https://api.ragie.ai/retrievals" /\
     headers = [(py "Content-Type", py "application/json");
                (py "Authorization", py "Bearer " ++ key)]).
Proof.
  revert h. induction runs as [|u rest IH]; intros h Hin.
  - destruct Hin.
  - rewrite run_session_cons in Hin. apply in_app_or in Hin as [Hin|Hin].
    + now apply main_post_is_authorized in Hin.
    + now apply IH in Hin.
Qed.

(** X17: no run of the script raises, whatever the services and the parser
    do: a session of any length ends normally. *)
Theorem run_session_never_raises (runs : list ui) (h : list event) :
  result_of (run_session w runs h) = Return tt.
Proof.
  revert h. induction runs as [|u rest IH]; intros h; [reflexivity|].
  cbn [run_session]. pose proof (main_returns w u h) as Hret.
  unfold result_of in *.
  destruct (main w u h) as [o d] eqn:E. cbn [fst] in Hret. subst o.
  rewrite bind_returns with (a := tt) (d := d) by exact E.
  cbn [fst]. apply IH.
Qed.

(** X18: while the session holds no key and none is submitted (the button
    is not pressed, or is pressed on an empty field), a run shows the page
    and the title, plus the request to enter a key if the button was pressed,
    and nothing else, whatever else is pressed or entered. *)
Theorem main_without_key (u : ui) (h : list event) :
  session_get h (py "sambanova_key") = None ->
  button u (py "Submit API Key") = false \/
  text_input u (py "Enter SambaNova API Key") = [] ->
  events_of (main w u h) =
    EPageConfig (py "RAG Over Online Documents with SambaNova") (py "wide")
    :: EMarkdown title_html true
    :: (if button u (py "Submit API Key")
        then [EError (py "Please enter your SambaNova API key.") None]
        else []).
Proof.
  intros Hnone Hsubmit. rewrite main_unfolds.
  assert (Hkey : current_key u h = None).
  { unfold current_key. destruct Hsubmit as [-> | ->]; [exact Hnone|].
    now destruct (button u _). }
  rewrite Hkey. unfold opening_of. cbn [events_of snd].
  destruct Hsubmit as [-> | ->]; [reflexivity|].
  now destruct (button u _).
Qed.

End SessionRequests.

(** ** The keys behind every request *)

Section SessionKeys.

Variable w : world.

Lemma run_session_app (a b : list ui) (h : list event) :
  events_of (run_session w (a ++ b) h) =
  events_of (run_session w a h) ++
  events_of (run_session w b (h ++ events_of (run_session w a h))).
Proof.
  revert h. induction a as [|u a IH]; intros h.
  - cbn [app run_session ret events_of snd]. now rewrite app_nil_r.
  - cbn [app]. rewrite !run_session_cons, IH, <- !app_assoc. reflexivity.
Qed.

(** The keys that a session keeps are non-empty. *)
Lemma run_session_ok (runs : list ui) (h : list event) :
  session_ok h -> session_ok (h ++ events_of (run_session w runs h)).
Proof.
  revert h. induction runs as [|u rest IH]; intros h Hok.
  - cbn [run_session ret events_of snd]. now rewrite app_nil_r.
  - rewrite run_session_cons, app_assoc. apply IH.
    exact (proj1 (main_requests w u Hok)).
Qed.

Lemma current_key_not_empty (u : ui) (h : list event) (key : str) :
  session_ok h -> current_key u h = Some key -> key <> [].
Proof.
  intros Hok Ekey. unfold current_key in Ekey.
  assert (Hold : session_get h (py "sambanova_key") = Some key -> key <> []).
  { intros Hs. apply session_get_in in Hs. exact (Hok _ _ Hs). }
  destruct (button u _); [|now apply Hold].
  destruct (text_input u (py "Enter SambaNova API Key")) as [|c l] eqn:Et;
    [now apply Hold|].
  injection Ekey as <-. discriminate.
Qed.

Lemma opening_is_quiet (u : ui) : Forall quiet_event (opening_of u).
Proof.
  unfold opening_of. repeat constructor.
  destruct (button u _); [|constructor].
  destruct (text_input u _); repeat constructor.
Qed.

(** C9, as amended: the constructor checks the retrieval key and takes the
    generation key as it comes; it is the script that keeps an empty
    generation key away.  A session is its runs one after the other, and a
    run that makes any request is a run in which the session holds a
    non-empty generation key: the pipeline is built from that very key, with
    the retrieval key present, and every request of the run is made by the
    upload section or by the query section called on that pipeline. *)
Theorem requests_need_both_keys :
  (forall key p, __init__ w key = inr p ->
     truthy (ragie_api_key p) = true /\ sambanova_api_key p = key) /\
  (forall earlier u later,
     let h := events_of (run_session w earlier []) in
     let run := events_of (main w u h) in
     events_of (run_session w (earlier ++ u :: later) []) =
       h ++ run ++ events_of (run_session w later (h ++ run)) /\
     (existsb is_network run = true ->
      exists key p,
        current_key u h = Some key /\ key <> [] /\
        __init__ w key = inr p /\
        truthy (ragie_api_key p) = true /\
        sambanova_api_key p = key /\
        api_key (sambanova_client p) = key /\
        let uploaded :=
          events_of (upload_section w u p (h ++ opening_of u ++ welcome_events)) in
        let queried :=
          events_of (query_section w u p
                       (h ++ opening_of u ++ welcome_events ++ uploaded ++
                        [query_heading])) in
        run = opening_of u ++ welcome_events ++ uploaded ++ [query_heading] ++ queried /\
        forall e, In e run -> is_network e = true ->
          (In e uploaded /\ upload_event p e) \/ (In e queried /\ query_event p e))).
Proof.
  split.
  - intros key p Hinit.
    apply init_builds in Hinit as [Hkey [Hsame [Hgen _]]].
    split; [now rewrite Hsame | exact Hgen].
  - intros earlier u later h run. split.
    + rewrite run_session_app, run_session_cons. reflexivity.
    + intros Hnet.
      assert (Hok : session_ok h).
      { assert (Hnil : session_ok []) by (intros key value []).
        exact (run_session_ok earlier Hnil). }
      assert (Hsilent : forall l, Forall quiet_event l -> existsb is_network l = false).
      { intros l Hl. apply existsb_none with (P := quiet_event); [exact Hl|].
        now intros []. }
      pose proof (opening_is_quiet u) as Hopen.
      subst run. rewrite main_unfolds in *.
      destruct (current_key u h) as [key|] eqn:Ekey.
      2:{ cbn [events_of snd] in Hnet. rewrite (Hsilent _ Hopen) in Hnet.
          discriminate. }
      destruct (__init__ w key) as [e|p] eqn:Einit.
      { cbn [events_of snd] in Hnet.
        rewrite existsb_app, (Hsilent _ Hopen) in Hnet. discriminate. }
      exists key, p.
      pose proof Einit as Hbuilt.
      apply init_builds in Hbuilt as [Hragie [Hsame [Hgen [Hclient _]]]].
      split; [reflexivity|].
      split; [exact (current_key_not_empty u Hok Ekey)|].
      split; [exact Einit|].
      split; [now rewrite Hsame|].
      split; [exact Hgen|].
      split; [exact Hclient|].
      cbv zeta. cbn [events_of snd]. split; [reflexivity|].
      intros e Hin He.
      pose proof (upload_section_events w u p (h ++ opening_of u ++ welcome_events))
        as Hue.
      pose proof (query_section_events w u p
                    (h ++ opening_of u ++ welcome_events ++
                     snd (upload_section w u p (h ++ opening_of u ++ welcome_events)) ++
                     [query_heading])) as Hqe.
      rewrite Forall_forall in Hopen, Hue, Hqe.
      apply in_app_or in Hin as [Hin|Hin].
      { apply Hopen in Hin. now destruct e. }
      apply in_app_or in Hin as [Hin|Hin]; [in_cases Hin; subst e; discriminate He|].
      apply in_app_or in Hin as [Hin|Hin].
      { left. split; [exact Hin | now apply Hue]. }
      apply in_app_or in Hin as [Hin|Hin]; [in_cases Hin; subst e; discriminate He|].
      right. split; [exact Hin | now apply Hqe].
Qed.

End SessionKeys.

(** ** The prompt is one line *)

Lemma visible_iff (c : char) :
  visible c <-> ((32 <=? c)%N && negb (N.eqb c 127)) = true.
Proof.
  unfold visible. rewrite andb_true_iff, negb_true_iff, N.leb_le, N.eqb_neq. tauto.
Qed.

Lemma visible_all (s : str) :
  forallb (fun c => (32 <=? c)%N && negb (N.eqb c 127)) s = true -> Forall visible s.
Proof.
  intros H. apply Forall_forall. intros c Hc. apply visible_iff.
  rewrite forallb_forall in H. now apply H.
Qed.

Lemma hexdigit_visible (d : N) : (d < 16)%N -> visible (hexdigit d).
Proof.
  intros Hd. unfold hexdigit, visible.
  destruct (d <? 10)%N eqn:E; [apply N.ltb_lt in E | apply N.ltb_ge in E]; lia.
Qed.

Lemma hex_fixed_visible (width : nat) (n : N) : Forall visible (hex_fixed width n).
Proof.
  revert n. induction width as [|k IH]; intros n; [constructor|].
  cbn [hex_fixed]. apply Forall_app. split; [apply IH|].
  constructor; [|constructor]. apply hexdigit_visible.
  apply N.mod_lt. discriminate.
Qed.

Lemma join_visible (sep : str) (parts : list str) :
  Forall visible sep -> Forall (Forall visible) parts -> Forall visible (join sep parts).
Proof.
  intros Hsep Hparts. induction Hparts as [|x rest Hx Hrest IH]; [constructor|].
  destruct rest as [|y rest]; [exact Hx|].
  change (join sep (x :: y :: rest)) with (x ++ sep ++ join sep (y :: rest)).
  apply Forall_app. split; [exact Hx|]. apply Forall_app. now split.
Qed.

Section VisiblePrompt.

Variable isprintable : char -> bool.

Lemma repr_char_visible (quote ch : char) :
  visible quote -> Forall visible (repr_char isprintable quote ch).
Proof.
  intros Hq. unfold repr_char.
  assert (Hbs : visible backslash) by (unfold visible, backslash; lia).
  assert (Hletter : forall l, In l [116; 110; 114; 120; 117; 85]%N -> visible l).
  { intros l Hl. unfold visible. cbn in Hl. lia. }
  assert (Htwo : forall a b, visible a -> visible b -> Forall visible [a; b]).
  { intros a b Ha Hb. constructor; [exact Ha|]. constructor; [exact Hb|constructor]. }
  assert (Hhex : forall l k n, In l [116; 110; 114; 120; 117; 85]%N ->
                   Forall visible (backslash :: l :: hex_fixed k n)).
  { intros l k n Hl. constructor; [exact Hbs|]. constructor; [now apply Hletter|].
    apply hex_fixed_visible. }
  destruct (N.eqb ch quote || N.eqb ch backslash) eqn:E1.
  { apply Htwo; [exact Hbs|].
    apply orb_true_iff in E1 as [E|E]; apply N.eqb_eq in E; now rewrite E. }
  destruct (N.eqb ch 9); [apply Htwo; [exact Hbs | apply Hletter; cbn; tauto]|].
  destruct (N.eqb ch 10); [apply Htwo; [exact Hbs | apply Hletter; cbn; tauto]|].
  destruct (N.eqb ch 13); [apply Htwo; [exact Hbs | apply Hletter; cbn; tauto]|].
  destruct ((ch <? 32)%N || N.eqb ch 127) eqn:E2; [apply Hhex; cbn; tauto|].
  apply orb_false_iff in E2 as [E32 E127].
  apply N.ltb_ge in E32. apply N.eqb_neq in E127.
  assert (Hch : Forall visible [ch]).
  { constructor; [split; assumption | constructor]. }
  destruct (ch <? 127)%N; [exact Hch|].
  destruct (isprintable ch); [exact Hch|].
  destruct (ch <=? 255)%N; [apply Hhex; cbn; tauto|].
  destruct (ch <=? 65535)%N; apply Hhex; cbn; tauto.
Qed.

Lemma repr_str_visible (s : str) : Forall visible (repr_str isprintable s).
Proof.
  unfold repr_str. cbv zeta.
  assert (Hq : visible (repr_quote s)).
  { unfold repr_quote, visible, squote, dquote. destruct (_ && _); lia. }
  set (q := repr_quote s) in *. clearbody q.
  constructor; [exact Hq|]. apply Forall_app.
  split; [|constructor; [exact Hq | constructor]].
  induction s as [|ch rest IH]; [constructor|].
  cbn [flat_map]. apply Forall_app. split; [now apply repr_char_visible | exact IH].
Qed.

End VisiblePrompt.

Section VisiblePromptOfChunks.

Variable w : world.

(** X19: whatever the texts of the chunks hold, the prompt built from them
    has no control character: line breaks, tabs and the like of the chunks
    reach the model only as escape sequences, on a single line. *)
Theorem create_system_prompt_is_one_line (chunks : list str) :
  Forall visible (create_system_prompt w (map PStr chunks)).
Proof.
  unfold create_system_prompt. rewrite repr_list_of_str.
  apply Forall_app. split; [apply visible_all; vm_compute; reflexivity|].
  apply Forall_app. split; [|apply visible_all; vm_compute; reflexivity].
  apply Forall_app. split; [apply visible_all; vm_compute; reflexivity|].
  apply Forall_app. split; [|apply visible_all; vm_compute; reflexivity].
  apply join_visible; [apply visible_all; vm_compute; reflexivity|].
  apply Forall_forall. intros x Hx. apply in_map_iff in Hx as [s [<- _]].
  apply repr_str_visible.
Qed.

End VisiblePromptOfChunks.

(** * The further properties at work on the reference worlds *)

Ltac find_in := vm_compute; repeat (first [left; reflexivity | right]).

Lemma main_uploads_what_was_entered_guide :
  button upload_named_click (py "Upload Document") = true /\
  text_input upload_named_click (py "Enter document URL") <> [] /\
  subscript (upload_payload (py "fast") (py "The guide") guide_url) (py "url") =
    inr (PStr (text_input upload_named_click (py "Enter document URL"))) /\
  subscript (upload_payload (py "fast") (py "The guide") guide_url) (py "mode") =
    inr (PStr (selectbox upload_named_click (py "Upload mode") [py "fast"; py "accurate"])) /\
  (text_input upload_named_click (py "Document name (optional)") <> [] ->
   subscript (upload_payload (py "fast") (py "The guide") guide_url) (py "name") =
     inr (PStr (text_input upload_named_click (py "Document name (optional)")))).
Proof.
  apply (@main_uploads_what_was_entered world_paris upload_named_click key_submitted
           (upload_payload (py "fast") (py "The guide") guide_url)
           (upload_headers reference_pipeline)
           (inr (json_response 200 (py "OK") paris_body))).
  find_in.
Defined.

Lemma main_pauses_after_upload_guide :
  (exists before after,
     events_of (main world_paris upload_named_click key_submitted) =
       before ++
       [guide_upload (inr (json_response 200 (py "OK") paris_body));
        ESleep 5;
        ESuccess (py "Document uploaded and indexed successfully!")] ++ after) /\
  filter is_sleep (events_of (main world_paris upload_named_click key_submitted)) =
    [ESleep 5].
Proof.
  apply (@main_pauses_after_upload world_paris upload_named_click key_submitted
           (upload_payload (py "fast") (py "The guide") guide_url)
           (upload_headers reference_pipeline)
           (json_response 200 (py "OK") paris_body) paris_body).
  - find_in.
  - reflexivity.
  - reflexivity.
Defined.

Lemma main_reports_upload_exception_undecodable :
  In (EError (py "Error uploading document: ")
             (Some (LibraryError (py "JSONDecodeError") (py "Expecting value"))))
     (events_of (main world_undecodable upload_named_click key_submitted)) /\
  filter is_sleep (events_of (main world_undecodable upload_named_click key_submitted)) = [].
Proof.
  apply (@main_reports_upload_exception world_undecodable upload_named_click
           key_submitted
           (upload_payload (py "fast") (py "The guide") guide_url)
           (upload_headers reference_pipeline)
           (inr undecodable)).
  - find_in.
  - right. exists undecodable. repeat split.
Defined.

Lemma upload_stops_on_rejected_url_here :
  upload_document world_paris reference_pipeline unparsable_url None default_mode [] =
    (Raise rejected, []) /\
  filter (is_post_to (py "https://api.ragie.ai/documents/url"))
         (events_of (main world_paris upload_unparsable_click key_submitted)) = [].
Proof.
  destruct (@upload_stops_on_rejected_url world_paris upload_unparsable_click
              key_submitted rejected) as [Hcall Hscript].
  split.
  - apply Hcall; reflexivity.
  - apply Hscript; reflexivity.
Defined.

Lemma retrieve_chunks_reports_latency_paris :
  events_of (retrieve_chunks world_paris reference_pipeline capital_query
                             default_scope []) =
    [paris_retrieval;
     EInfo (py "Time taken to retrieve document information: 0.42 seconds");
     EPrint (py "Time taken to retrieve document information: 0.42 seconds")].
Proof.
  destruct (@retrieve_chunks_reports_latency world_paris reference_pipeline
              capital_query default_scope []) as [Hreport _].
  apply (Hreport (json_response 200 (py "OK") paris_body) paris_body); reflexivity.
Defined.

Lemma retrieve_chunks_incomplete_chunk_partial :
  result_of (retrieve_chunks world_partial reference_pipeline capital_query
                             default_scope []) =
    Raise (KeyError (py "text")).
Proof.
  destruct (@retrieve_chunks_incomplete_chunk world_partial reference_pipeline
              capital_query default_scope []
              (RAGIE_RETRIEVAL_URL reference_pipeline)
              (retrieval_payload capital_query default_scope)
              (retrieval_headers reference_pipeline)
              (json_response 200 (py "OK") partial_body) partial_body
              [PDict [(py "text", PStr (py "Paris is the capital of France."))]]
              [PStr (py "Paris is the capital of France.")]
              (PDict [(py "score", PFloat (py "0.77"))]) [])
    as [_ Hmissing].
  - find_in.
  - reflexivity.
  - reflexivity.
  - eexists. split; [reflexivity|]. split.
    + repeat constructor. intros [].
    + left. reflexivity.
  - repeat constructor. eexists. split; [reflexivity|]. split.
    + repeat constructor. intros [].
    + left. reflexivity.
  - apply Hmissing. eexists. split; [reflexivity|].
    intros [H|[]]. vm_compute in H. discriminate.
Defined.

Lemma retrieve_chunks_wrong_shape_null :
  result_of (retrieve_chunks world_null_chunks reference_pipeline capital_query
                             default_scope []) = Raise TypeError.
Proof.
  destruct (@retrieve_chunks_wrong_shape world_null_chunks reference_pipeline
              capital_query default_scope []
              (RAGIE_RETRIEVAL_URL reference_pipeline)
              (retrieval_payload capital_query default_scope)
              (retrieval_headers reference_pipeline)
              (json_response 200 (py "OK") (PDict [(py "scored_chunks", PNone)]))
              (PDict [(py "scored_chunks", PNone)]))
    as [_ Hnull].
  - find_in.
  - reflexivity.
  - reflexivity.
  - apply (Hnull PNone); [|now left].
    eexists. split; [reflexivity|]. split.
    + repeat constructor. intros [].
    + left. reflexivity.
Defined.

Lemma process_query_empty_collection_object :
  result_of (process_query world_empty_object reference_pipeline capital_query
                           default_scope []) = Return no_information /\
  existsb is_chat (events_of (process_query world_empty_object reference_pipeline
                                            capital_query default_scope [])) = false /\
  List.length (events_of (process_query world_empty_object reference_pipeline
                                        capital_query default_scope [])) = 3.
Proof.
  apply (@process_query_empty_collection world_empty_object reference_pipeline
           capital_query default_scope []
           (RAGIE_RETRIEVAL_URL reference_pipeline)
           (retrieval_payload capital_query default_scope)
           (retrieval_headers reference_pipeline)
           (json_response 200 (py "OK") (PDict [(py "scored_chunks", PDict [])]))
           (PDict [(py "scored_chunks", PDict [])]) (PDict [])).
  - find_in.
  - reflexivity.
  - reflexivity.
  - eexists. split; [reflexivity|]. split.
    + repeat constructor. intros [].
    + left. reflexivity.
  - right. now left.
Defined.

Lemma process_query_generation_failure_here :
  result_of (process_query world_rate_limited reference_pipeline capital_query
                           default_scope []) = Raise rate_limited /\
  result_of (process_query world_no_choice reference_pipeline capital_query
                           default_scope []) = Raise IndexError.
Proof.
  split.
  - destruct (@process_query_generation_failure world_rate_limited reference_pipeline
                capital_query default_scope []
                (events_of (retrieve_chunks world_rate_limited reference_pipeline
                                            capital_query default_scope []))
                (map PStr paris_chunks)) as [Hraise _].
    + vm_compute. reflexivity.
    + discriminate.
    + rewrite (Hraise rate_limited); reflexivity.
  - destruct (@process_query_generation_failure world_no_choice reference_pipeline
                capital_query default_scope []
                (events_of (retrieve_chunks world_no_choice reference_pipeline
                                            capital_query default_scope []))
                (map PStr paris_chunks)) as [_ Hnone].
    + vm_compute. reflexivity.
    + discriminate.
    + rewrite Hnone; reflexivity.
Defined.

Lemma main_idle_on_submit :
  existsb is_network (events_of (main world_paris submit_click key_submitted)) = false.
Proof.
  apply (@main_idle world_paris submit_click key_submitted); left; reflexivity.
Defined.

Lemma main_queries_what_was_entered_paris :
  button ask_click (py "Generate Response") = true /\
  text_input ask_click (py "Enter your query") <> [] /\
  retrieval_payload capital_query default_scope =
    PDict [(py "query", PStr (text_input ask_click (py "Enter your query")));
           (py "filters", PDict [(py "scope", PStr (py "tutorial"))])].
Proof.
  apply (@main_queries_what_was_entered world_paris ask_click key_submitted
           (retrieval_payload capital_query default_scope)
           (retrieval_headers reference_pipeline)
           (inr (json_response 200 (py "OK") paris_body))).
  find_in.
Defined.

Lemma main_shows_answer_paris :
  exists before,
    events_of (main world_paris ask_click key_submitted) =
      before ++ [paris_completion;
                 EMarkdown (py "### Response:") false;
                 EMarkdown (py "Paris.") false].
Proof.
  apply (@main_shows_answer world_paris ask_click key_submitted
           (sambanova_client reference_pipeline)
           {| model := py "Llama-3.2-11B-Vision-Instruct";
              messages := [ {| role := py "system"; content := paris_prompt |};
                            {| role := py "user"; content := capital_query |} ];
              temperature := PFloat (py "0.1");
              top_p := PFloat (py "0.1") |}
           (py "Paris.") []).
  find_in.
Defined.

Lemma main_completes_with_current_key_rotated :
  In paris_completion_new_key
     (events_of (main world_paris rotate_and_ask_click key_submitted)) /\
  current_key rotate_and_ask_click key_submitted = Some (api_key new_client) /\
  base_url new_client = py "https://api.sambanova.ai/v1".
Proof.
  assert (Hin : In paris_completion_new_key
                   (events_of (main world_paris rotate_and_ask_click key_submitted)))
    by find_in.
  split; [exact Hin|].
  destruct (@main_completes_with_current_key world_paris rotate_and_ask_click
              key_submitted new_client _ _ Hin) as [Hkey [Hbase _]].
  now split.
Defined.

Lemma session_posts_are_authorized_paris :
  exists key,
    RAGIE_API_KEY world_paris = Some key /\ key <> [] /\
    (RAGIE_RETRIEVAL_URL reference_pipeline = py "https://api.ragie.ai/documents/url" /\
     retrieval_headers reference_pipeline =
       [(py "accept", py "application/json");
        (py "content-type", py "application/json");
        (py "authorization", py "Bearer " ++ key)]
     \/
     RAGIE_RETRIEVAL_URL reference_pipeline = py "https://api.ragie.ai/retrievals" /\
     retrieval_headers reference_pipeline =
       [(py "Content-Type", py "application/json");
        (py "Authorization", py "Bearer " ++ key)]).
Proof.
  apply (@session_posts_are_authorized world_paris [submit_click; ask_click] []
           (RAGIE_RETRIEVAL_URL reference_pipeline)
           (retrieval_payload capital_query default_scope)
           (retrieval_headers reference_pipeline)
           (inr (json_response 200 (py "OK") paris_body))).
  find_in.
Defined.

Lemma main_without_key_asking :
  events_of (main world_paris ask_click []) =
    EPageConfig (py "RAG Over Online Documents with SambaNova") (py "wide")
    :: EMarkdown title_html true
    :: (if button ask_click (py "Submit API Key")
        then [EError (py "Please enter your SambaNova API key.") None]
        else []).
Proof.
  apply (@main_without_key world_paris ask_click []).
  - reflexivity.
  - left. reflexivity.
Defined.

(** A session: the key is submitted, then a question is asked. *)
Lemma requests_need_both_keys_session :
  existsb is_network (events_of (main world_paris ask_click after_submission)) = true /\
  exists key p,
    current_key ask_click after_submission = Some key /\ key <> [] /\
    __init__ world_paris key = inr p /\
    truthy (ragie_api_key p) = true /\
    sambanova_api_key p = key /\
    api_key (sambanova_client p) = key /\
    let uploaded :=
      events_of (upload_section world_paris ask_click p
                   (after_submission ++ opening_of ask_click ++ welcome_events)) in
    let queried :=
      events_of (query_section world_paris ask_click p
                   (after_submission ++ opening_of ask_click ++ welcome_events ++
                    uploaded ++ [query_heading])) in
    events_of (main world_paris ask_click after_submission) =
      opening_of ask_click ++ welcome_events ++ uploaded ++ [query_heading] ++ queried /\
    forall e, In e (events_of (main world_paris ask_click after_submission)) ->
      is_network e = true ->
      (In e uploaded /\ upload_event p e) \/ (In e queried /\ query_event p e).
Proof.
  split; [vm_compute; reflexivity|].
  apply (proj2 (proj2 (@requests_need_both_keys world_paris) [submit_click] ask_click [])).
  vm_compute. reflexivity.
Defined.
